(** * flesk_finder: ingestion and reconciliation of river-gauge readings

    A shallow embedding of [app/main.py]: the archive importer
    ([get_past_data_epa]), the live poller ([get_latest_level]), the
    DynamoDB-backed store operations ([update_level_db],
    [batch_update_level_db], [get_past_data_dynamo]) and the two ingestion
    handlers, followed by the properties the specification states about
    them.

    Python exceptions are values of [exn]; a computation that may raise
    returns a [result]; code that talks to the table threads a [Store]. *)

From Stdlib Require Import ZArith Lia Ascii String.
From stdpp Require Import base option list strings gmap sorting pretty.

Local Open Scope string_scope.
Local Open Scope list_scope.
Local Open Scope Z_scope.

(** ** Exceptions and fallible computations *)

(** The exceptions the modelled code can meet.  [ClientError] carries
    [e.response['Error']['Code']] and the message; [OtherError] stands for
    any exception that is not a [ClientError] (a connection failure, say). *)
Inductive exn : Type :=
  | ClientError (code message : string)
  | AttributeError
  | IndexError
  | KeyError (key : string)
  | ValueError
  | InvalidOperation
  | OtherError (name : string).

#[global] Instance exn_eq_dec : EqDecision exn.
Proof. solve_decision. Defined.

Inductive result (A : Type) : Type :=
  | Ok (a : A)
  | Raise (e : exn).
Arguments Ok {A} a.
Arguments Raise {A} e.

#[global] Instance result_ret : MRet result := λ A a, Ok a.
#[global] Instance result_bind : MBind result := λ A B k r,
  match r with
  | Ok a => k a
  | Raise e => Raise e
  end.

(** [try: body / except: handler] for a body without store effects. *)
Definition try_except {A} (body : result A) (handler : exn → result A)
  : result A :=
  match body with
  | Ok a => Ok a
  | Raise e => handler e
  end.

Definition is_ok {A} (r : result A) : Prop := ∃ a, r = Ok a.
Definition raises {A} (r : result A) : Prop := ∃ e, r = Raise e.

(** ** Python sequences and strings *)

(** [l[i]] for a non-negative literal index. *)
Definition getitem {A} (l : list A) (i : nat) : result A :=
  match l !! i with
  | Some x => Ok x
  | None => Raise IndexError
  end.

(** [l[start:]] with Python's treatment of negative and oversized starts. *)
Definition slice_from {A} (start : Z) (l : list A) : list A :=
  let len := Z.of_nat (length l) in
  let s := if start <? 0 then Z.max (len + start) 0 else Z.min start len in
  drop (Z.to_nat s) l.

(** [s.split(sep)] for a one-character separator: never empty. *)
Fixpoint split (sep : ascii) (s : string) : list string :=
  match s with
  | EmptyString => [EmptyString]
  | String c s' =>
      if Ascii.eqb c sep then EmptyString :: split sep s'
      else match split sep s' with
           | [] => [String c EmptyString]
           | f :: fs => String c f :: fs
           end
  end.

(** [c in s] for a one-character [c]. *)
Fixpoint contains (c : ascii) (s : string) : bool :=
  match s with
  | EmptyString => false
  | String c' s' => Ascii.eqb c' c || contains c s'
  end.

Definition newline : ascii := Ascii.ascii_of_nat 10.

(** Iterating over a text file: the pieces between line feeds, without a
    final empty piece. *)
Definition file_lines (text : string) : list string :=
  let pieces := split newline text in
  match last pieces with
  | Some EmptyString => removelast pieces
  | _ => pieces
  end.

(** [csv.reader(f, delimiter=' ')] on text that holds no double quote and
    no carriage return: a blank line gives the empty row, any other line
    its space-separated fields.  The reader's quoting and the newline
    translation of text files are not modelled; the properties of the
    importer are therefore stated on the rows the reader yields
    ([import_rows]), and this function only turns sample files into
    rows. *)
Definition csv_row (line : string) : list string :=
  match line with
  | EmptyString => []
  | _ => split " " line
  end.

Definition csv_reader (text : string) : list (list string) :=
  csv_row <$> file_lines text.

(** ** Dates and times *)

(** A [datetime.datetime] value; [tzinfo] is the UTC offset in seconds of an
    aware value and [None] for a naive one. *)
Record datetime : Type := mk_datetime {
  year : Z; month : Z; day : Z;
  hour : Z; minute : Z; second : Z; microsecond : Z;
  tzinfo : option Z
}.

#[global] Instance datetime_eq_dec : EqDecision datetime.
Proof. solve_decision. Defined.

#[global] Instance datetime_countable : Countable datetime.
Proof.
  apply (inj_countable'
    (λ d, (year d, month d, day d, hour d, minute d, second d,
           microsecond d, tzinfo d))
    (λ t, let '(y, mo, d, h, mi, s, us, tz) := t in
          mk_datetime y mo d h mi s us tz)).
  by intros [].
Defined.

Definition is_leap (y : Z) : bool :=
  (y mod 4 =? 0) && (negb (y mod 100 =? 0) || (y mod 400 =? 0)).

Definition days_in_month (y m : Z) : Z :=
  if m =? 2 then (if is_leap y then 29 else 28)
  else if (m =? 4) || (m =? 6) || (m =? 9) || (m =? 11) then 30
  else 31.

(** [datetime.datetime(year=, month=, day=, hour=, minute=)]: naive, with
    zero seconds; out-of-range fields raise [ValueError]. *)
Definition datetime_new (y m d h mi : Z) : result datetime :=
  if (1 <=? y) && (y <=? 9999) && (1 <=? m) && (m <=? 12)
     && (1 <=? d) && (d <=? days_in_month y m)
     && (0 <=? h) && (h <=? 23) && (0 <=? mi) && (mi <=? 59)
  then Ok (mk_datetime y m d h mi 0 0 None)
  else Raise ValueError.

(** ** The libraries the program calls

    What the program takes from the Python runtime and its libraries, as an
    interface: the decimal type, the string parsers, and the conversions
    between local wall-clock time and epoch seconds. *)
Class Platform : Type := {
  (** [decimal.Decimal] *)
  Decimal : Type;
  (** [Decimal(s)] on a string; [None] when it raises [InvalidOperation] *)
  Decimal_of_str : string → option Decimal;
  (** [a - b] on decimals *)
  Decimal_sub : Decimal → Decimal → Decimal;
  (** [int(s)] on a string; [None] when it raises [ValueError] *)
  int_of_str : string → option Z;
  (** [dateutil.parser.parse(s)]; [None] when it raises *)
  parser_parse : string → option datetime;
  (** [int(d.timestamp())] *)
  timestamp : datetime → Z;
  (** [datetime.datetime.fromtimestamp(t)] *)
  fromtimestamp : Z → datetime;
  (** [d - datetime.timedelta(days=k)] *)
  minus_days : datetime → Z → datetime
}.

Section Program.
Context `{Platform}.

(** ** Readings *)

(** [class Level]: a time and a level, nothing else. *)
Record Level : Type := mk_Level { time : datetime; level : Decimal }.

Definition FLESK_GAUGE_NUMBER : Z := 22039.

Definition int (s : string) : result Z :=
  match int_of_str s with
  | Some z => Ok z
  | None => Raise ValueError
  end.

Definition to_Decimal (s : string) : result Decimal :=
  match Decimal_of_str s with
  | Some d => Ok d
  | None => Raise InvalidOperation
  end.

(** ** The archive importer, [get_past_data_epa] *)

(** [rows = [row for row in csv_reader if "#" not in row[0]]] *)
Fixpoint data_rows (csv : list (list string)) : result (list (list string)) :=
  match csv with
  | [] => Ok []
  | row :: rest =>
      first ← getitem row 0;
      kept ← data_rows rest;
      mret (if contains "#" first then kept else row :: kept)
  end.

(** The statements of the loop body that come before its [try]: [date],
    [time] and the [datetime.datetime(...)] call, whose keyword arguments
    are evaluated from left to right. *)
Definition row_time (row : list string) : result datetime :=
  date ← getitem row 0;
  field ← getitem row 1;
  clock ← getitem (split ";" field) 0;
  ys ← getitem (split "-" date) 0;
  y ← int ys;
  ms ← getitem (split "-" date) 1;
  m ← int ms;
  ds ← getitem (split "-" date) 2;
  d ← int ds;
  hs ← getitem (split ":" clock) 0;
  h ← int hs;
  mis ← getitem (split ":" clock) 1;
  mi ← int mis;
  datetime_new y m d h mi.

(** [Level(time=parsed_time, level=Decimal(row[1].split(";")[1]))] *)
Definition row_level (row : list string) (parsed_time : datetime)
  : result Level :=
  field ← getitem row 1;
  value ← getitem (split ";" field) 1;
  d ← to_Decimal value;
  mret (mk_Level parsed_time d).

(** One iteration of [for row in rows[- n_last_readings:]]: only the
    [levels.append(...)] statement is inside [try: ... except: pass]. *)
Definition read_row (levels : list Level) (row : list string)
  : result (list Level) :=
  parsed_time ← row_time row;
  try_except
    (l ← row_level row parsed_time; mret (levels ++ [l]))
    (λ _, mret levels).

Fixpoint read_rows (levels : list Level) (rows : list (list string))
  : result (list Level) :=
  match rows with
  | [] => Ok levels
  | row :: rest =>
      levels' ← read_row levels row;
      read_rows levels' rest
  end.

(** [text] is the content of the extracted [complete_15min.csv]. *)
Definition get_past_data_epa (text : string) (n_last_readings : Z)
  : result (list Level) :=
  rows ← data_rows (csv_reader text);
  read_rows [] (slice_from (- n_last_readings) rows).

(** ** The live poller, [get_latest_level] *)

(** One entry of the feed's JSON array, with the fields read as strings. *)
Definition gauge_get (gauge : gmap string string) (key : string)
  : result string :=
  match gauge !! key with
  | Some v => Ok v
  | None => Raise (KeyError key)
  end.

(** [gauges] is [response.json()].  Falling off the end of the loop prints
    "could not find gauge..." and returns [None]. *)
Fixpoint get_latest_level (gauge_number : Z) (gauges : list (gmap string string))
  : result (option Level) :=
  match gauges with
  | [] => Ok None
  | gauge :: rest =>
      station_no ← gauge_get gauge "metadata_station_no";
      if String.eqb station_no (pretty gauge_number) then
        stamp ← gauge_get gauge "L1_timestamp";
        parsed_time ← from_option Ok (Raise ValueError) (parser_parse stamp);
        value ← gauge_get gauge "L1_ts_value";
        raw ← to_Decimal value;
        datum_s ← gauge_get gauge "L1_station_gauge_datum";
        datum ← to_Decimal datum_s;
        mret (Some (mk_Level parsed_time (Decimal_sub raw datum)))
      else get_latest_level gauge_number rest
  end.

(** ** The table [river_levels]

    Items are keyed by [(river_name, timestamp)]; the remaining attribute is
    the level. *)
Record Item : Type := mk_Item {
  river_name : string;
  item_timestamp : Z;
  item_level : Decimal
}.

Definition item_key (it : Item) : string * Z :=
  (river_name it, item_timestamp it).

Inductive Request : Type :=
  | PutItem (item : Item)
  | BatchWrite (batch : list Item)
  | Query (river : string) (since : Z).

(** The table together with its environment: [faults] is what the service
    will answer to the coming requests ([Some e]: the request fails with
    [e] and changes nothing; an exhausted schedule means no failure), and
    [requests] logs the requests sent so far. *)
Record Store : Type := mk_Store {
  items : gmap (string * Z) Decimal;
  faults : list (option exn);
  requests : list Request
}.

Definition M (A : Type) : Type := Store → result A * Store.

#[global] Instance M_ret : MRet M := λ A a st, (Ok a, st).
#[global] Instance M_bind : MBind M := λ A B k c st,
  match c st with
  | (Ok a, st') => k a st'
  | (Raise e, st') => (Raise e, st')
  end.

Definition lift {A} (r : result A) : M A := λ st, (r, st).

(** A primitive step on the store. *)
Definition step {A} (f : Store → result A * Store) : M A := f.

(** [try: body / except ...: handler]; [handler e = None] when no [except]
    clause matches [e], which then propagates. *)
Definition try_catch {A} (body : M A) (handler : exn → option (M A)) : M A :=
  λ st,
    match body st with
    | (Ok a, st') => (Ok a, st')
    | (Raise e, st') =>
        match handler e with
        | Some h => h st'
        | None => (Raise e, st')
        end
    end.

(** Sending a request: it is logged, and the service's next answer is
    consumed. *)
Definition send (r : Request) : M unit := λ st,
  let log := (requests st ++ [r]) in
  match faults st with
  | Some e :: coming => (Raise e, mk_Store (items st) coming log)
  | None :: coming => (Ok (), mk_Store (items st) coming log)
  | [] => (Ok (), mk_Store (items st) [] log)
  end.

Definition conditional_check_failed : exn :=
  ClientError "ConditionalCheckFailedException" "The conditional request failed".

(** [table.put_item(Item=..., ConditionExpression='attribute_not_exists(river_name)')] *)
Definition put_item_if_not_exists (it : Item) : M unit :=
  _ ← send (PutItem it);
  step (λ st,
    match items st !! item_key it with
    | Some _ => (Raise conditional_check_failed, st)
    | None =>
        (Ok (), mk_Store (<[item_key it := item_level it]> (items st))
                         (faults st) (requests st))
    end).

(** The writes of a [batch_writer(overwrite_by_pkeys=...)] block: a later
    item replaces an earlier one with the same key; an empty buffer sends
    nothing. *)
Definition batch_put (batch : list Item) : M unit :=
  match batch with
  | [] => mret ()
  | _ =>
      _ ← send (BatchWrite batch);
      step (λ st,
        (Ok (), mk_Store
                  (foldl (λ m it, <[item_key it := item_level it]> m)
                         (items st) batch)
                  (faults st) (requests st)))
  end.

Definition in_range (river : string) (since : Z) (kv : string * Z * Decimal)
  : Prop :=
  kv.1.1 = river ∧ since < kv.1.2.

#[global] Instance in_range_dec river since kv : Decision (in_range river since kv).
Proof. unfold in_range. apply _. Defined.

Definition by_timestamp (a b : string * Z * Decimal) : Prop := a.1.2 ≤ b.1.2.

#[global] Instance by_timestamp_dec a b : Decision (by_timestamp a b).
Proof. unfold by_timestamp. apply _. Defined.

(** [Key('river_name').eq(river) & Key('timestamp').gt(since)]: the items
    of the partition above the bound, in ascending sort-key order. *)
Definition query_items (river : string) (since : Z)
    (m : gmap (string * Z) Decimal) : list Item :=
  (λ kv, mk_Item kv.1.1 kv.1.2 kv.2)
    <$> merge_sort by_timestamp (filter (in_range river since) (map_to_list m)).

Definition query (river : string) (since : Z) : M (list Item) :=
  _ ← send (Query river since);
  step (λ st, (Ok (query_items river since (items st)), st)).

(** ** Store operations of the program *)

(** [level.time] / [level.level] on an argument that may be [None]. *)
Definition deref (arg : option Level) : result Level :=
  match arg with
  | Some l => Ok l
  | None => Raise AttributeError
  end.

Definition update_level_db (arg : option Level) : M bool :=
  try_catch
    (l ← lift (deref arg);
     _ ← put_item_if_not_exists
           (mk_Item "Flesk" (timestamp (time l)) (level l));
     mret true)
    (λ e,
       match e with
       | ClientError code message =>
           Some (if String.eqb code "ConditionalCheckFailedException"
                 then mret false
                 else lift (Raise e))
       | _ => None
       end).

Definition batch_update_level_db (river : string) (levels : list Level)
  : M unit :=
  batch_put ((λ l, mk_Item river (timestamp (time l)) (level l)) <$> levels).

Definition get_past_data_dynamo (river : string) (since_date : datetime)
  : M (list Level) :=
  let since_timestamp := timestamp since_date in
  response ← query river since_timestamp;
  mret ((λ it, mk_Level (fromtimestamp (item_timestamp it)) (item_level it))
          <$> response).

(** ** The two ingestion handlers *)

(** Live mode.  [gauges] is the snapshot the feed returns. *)
Definition update_current_levels_table_handler
    (gauges : list (gmap string string)) : M bool :=
  latest ← lift (get_latest_level FLESK_GAUGE_NUMBER gauges);
  update_level_db latest.

(** [dynamo_times = {level.time for level in dynamo_levels}] and
    [[level for level in epa_levels if level.time not in dynamo_times]] *)
Definition new_river_levels (epa_levels dynamo_levels : list Level)
  : list Level :=
  let dynamo_times : gset datetime := list_to_set (time <$> dynamo_levels) in
  filter (λ l, time l ∉ dynamo_times) epa_levels.

(** Backfill mode.  [text] is the archive's file and [now] is
    [datetime.datetime.now()]. *)
Definition update_past_levels_table_handler (text : string) (now : datetime)
  : M bool :=
  epa_levels ← lift (get_past_data_epa text 3000);
  dynamo_levels ← get_past_data_dynamo "Flesk" (minus_days now 50);
  match new_river_levels epa_levels dynamo_levels with
  | [] => mret false
  | new => _ ← batch_update_level_db "Flesk" new; mret true
  end.

End Program.

(** ** Vocabulary of the statements *)

Section Notions.
Context `{Platform}.

(** The item [update_level_db] submits for a reading. *)
Definition flesk_item (l : Level) : Item :=
  mk_Item "Flesk" (timestamp (time l)) (level l).

Definition error_code (e : exn) : option string :=
  match e with
  | ClientError code _ => Some code
  | _ => None
  end.

(** The reading [get_past_data_dynamo] builds from an item. *)
Definition level_of_item (it : Item) : Level :=
  mk_Level (fromtimestamp (item_timestamp it)) (item_level it).

(** What the backfill handler reads from the table: the "Flesk" items of
    the fifty days before [now]. *)
Definition dynamo_window (now : datetime) (m : gmap (string * Z) Decimal)
  : list Level :=
  level_of_item <$> query_items "Flesk" (timestamp (minus_days now 50)) m.

(** The items of the table after a batch of writes. *)
Definition write_all (m : gmap (string * Z) Decimal) (batch : list Item)
  : gmap (string * Z) Decimal :=
  foldl (λ m it, <[item_key it := item_level it]> m) m batch.

(** A comment row: its first field holds a [#]. *)
Definition is_comment (row : list string) : bool :=
  match row with
  | first :: _ => contains "#" first
  | [] => false
  end.

(** The last [n] elements of a list (all of it when it is shorter). *)
Definition last_n {A} (n : nat) (l : list A) : list A :=
  drop (length l - n) l.

(** The text between the first and the second semicolon of the second
    field. *)
Definition value_field (row : list string) : option string :=
  field ← row !! 1%nat; split ";" field !! 1%nat.

(** The reading a row stands for, when its date, time and value are all
    readable. *)
Definition reading_of (row : list string) : option Level :=
  match row_time row with
  | Ok t =>
      match row_level row t with
      | Ok l => Some l
      | Raise _ => None
      end
  | Raise _ => None
  end.

(** A part of a date or time that is missing or is not an integer. *)
Definition not_an_integer (part : option string) : Prop :=
  match part with
  | Some s => int_of_str s = None
  | None => True
  end.

(** A row with a date field and a time field, in which one of the three
    [-]-separated parts of the date or one of the two [:]-separated parts
    of the time is missing or is not an integer. *)
Definition malformed_date_time (row : list string) : Prop :=
  ∃ date field,
    row !! 0%nat = Some date ∧ row !! 1%nat = Some field
    ∧ ∃ i : nat,
        (i < 3)%nat ∧ not_an_integer (split "-" date !! i)
        ∨ (i < 2)%nat
          ∧ not_an_integer
              (split ":" (default "" (head (split ";" field))) !! i).

End Notions.

(** ** A concrete platform

    Interpreter settings on which the program can be run: the machine's
    time zone is UTC, decimals are a coefficient and an exponent, and the
    parsers accept plain signed digit strings, plain decimal numerals and
    ISO timestamps. *)
Module Utc.

Definition digit (c : ascii) : option Z :=
  let n := Z.of_nat (nat_of_ascii c) in
  if (48 <=? n) && (n <=? 57) then Some (n - 48) else None.

Fixpoint digits (acc : Z) (s : string) : option Z :=
  match s with
  | EmptyString => Some acc
  | String c s' => d ← digit c; digits (10 * acc + d) s'
  end.

Definition numeral (s : string) : option Z :=
  match s with
  | EmptyString => None
  | _ => digits 0 s
  end.

Definition signed (f : string → option Z) (s : string) : option Z :=
  match s with
  | String "-" s' => Z.opp <$> f s'
  | String "+" s' => f s'
  | _ => f s
  end.

Definition int_of_str : string → option Z := signed numeral.

Record dec : Type := mk_dec { coefficient : Z; exponent : Z }.

Definition dec_of_str (s : string) : option dec :=
  let body := match s with
              | String "-" s' => s'
              | String "+" s' => s'
              | _ => s
              end in
  let sign := match s with String "-" _ => -1 | _ => 1 end in
  match split "." body with
  | [whole] => c ← numeral whole; Some (mk_dec (sign * c) 0)
  | [whole; frac] =>
      c ← numeral (whole ++ frac)%string;
      Some (mk_dec (sign * c) (- Z.of_nat (String.length frac)))
  | _ => None
  end.

Definition dec_sub (a b : dec) : dec :=
  let e := Z.min (exponent a) (exponent b) in
  mk_dec (coefficient a * 10 ^ (exponent a - e)
          - coefficient b * 10 ^ (exponent b - e)) e.

(** Days between 1970-01-01 and a civil date, and back. *)
Definition days_from_civil (y m d : Z) : Z :=
  let y' := if m <=? 2 then y - 1 else y in
  let era := y' / 400 in
  let yoe := y' - era * 400 in
  let mp := (m + 9) mod 12 in
  let doy := (153 * mp + 2) / 5 + d - 1 in
  let doe := yoe * 365 + yoe / 4 - yoe / 100 + doy in
  era * 146097 + doe - 719468.

Definition civil_from_days (z : Z) : Z * Z * Z :=
  let z' := z + 719468 in
  let era := z' / 146097 in
  let doe := z' - era * 146097 in
  let yoe := (doe - doe / 1460 + doe / 36524 - doe / 146096) / 365 in
  let doy := doe - (365 * yoe + yoe / 4 - yoe / 100) in
  let mp := (5 * doy + 2) / 153 in
  let d := doy - (153 * mp + 2) / 5 + 1 in
  let m := if mp <? 10 then mp + 3 else mp - 9 in
  let y := yoe + era * 400 in
  (if m <=? 2 then y + 1 else y, m, d).

(** Seconds of the wall-clock fields since 1970-01-01T00:00:00. *)
Definition wall_seconds (d : datetime) : Z :=
  days_from_civil (year d) (month d) (day d) * 86400
  + hour d * 3600 + minute d * 60 + second d.

Definition of_wall_seconds (t us : Z) (tz : option Z) : datetime :=
  let '(y, m, d) := civil_from_days (t / 86400) in
  let r := t mod 86400 in
  mk_datetime y m d (r / 3600) (r mod 3600 / 60) (r mod 60) us tz.

Definition timestamp (d : datetime) : Z :=
  wall_seconds d - default 0 (tzinfo d).

Definition fromtimestamp (t : Z) : datetime := of_wall_seconds t 0 None.

Definition minus_days (d : datetime) (k : Z) : datetime :=
  of_wall_seconds (wall_seconds d - 86400 * k) (microsecond d) (tzinfo d).

(** [YYYY-MM-DDTHH:MM:SS], naive, or aware in UTC with a final [Z]. *)
Definition parser_parse (s : string) : option datetime :=
  match split "T" s with
  | [date; clock] =>
      let '(clock', tz) :=
        match split "Z" clock with
        | [c; EmptyString] => (c, Some 0)
        | _ => (clock, None)
        end in
      match split "-" date, split ":" clock' with
      | [ys; ms; ds], [hs; mis; ss] =>
          y ← numeral ys; m ← numeral ms; d ← numeral ds;
          h ← numeral hs; mi ← numeral mis; sec ← numeral ss;
          match datetime_new y m d h mi with
          | Ok t =>
              if (0 <=? sec) && (sec <=? 59)
              then Some (mk_datetime y m d h mi sec 0 tz)
              else None
          | Raise _ => None
          end
      | _, _ => None
      end
  | _ => None
  end.

Definition platform : Platform :=
  Build_Platform dec dec_of_str dec_sub int_of_str parser_parse
                 timestamp fromtimestamp minus_days.

End Utc.

(** ** The dispatcher, [handler] *)

Section Dispatch.
Context `{Platform}.

(** [draw_graph_levels(levels, river_name, 0.7, 1.5)] is bokeh plotting and
    is not modelled: the dispatcher is stated for any behaviour of it. *)
Variable draw_graph_levels : list Level → string → result string.

(** [now] is the [datetime.datetime.now()] of the call. *)
Definition create_graph_handler (now : datetime) : M unit :=
  levels ← get_past_data_dynamo "Flesk" (minus_days now 50);
  _ ← lift (draw_graph_levels levels "Flesk - Last two weeks");
  mret ().

(** [event] is the invocation's dictionary; [now] and [later] are the clock
    readings of the ingestion and of the graph. *)
Definition handler (event : gmap string string)
    (gauges : list (gmap string string)) (text : string)
    (now later : datetime) : M unit :=
  if bool_decide (is_Some (event !! "current")) then
    fresh ← update_current_levels_table_handler gauges;
    if fresh : bool then create_graph_handler later else mret ()
  else if bool_decide (is_Some (event !! "past")) then
    fresh ← update_past_levels_table_handler text now;
    if fresh : bool then create_graph_handler later else mret ()
  else mret ().

End Dispatch.

(** ** Further vocabulary *)

(** What [datetime.datetime(year, month, day, hour, minute)] builds: a
    naive value on the calendar, on a full minute. *)
Definition on_calendar (d : datetime) : Prop :=
  1 ≤ year d ≤ 9999 ∧ 1 ≤ month d ≤ 12
  ∧ 1 ≤ day d ≤ days_in_month (year d) (month d)
  ∧ 0 ≤ hour d ≤ 23 ∧ 0 ≤ minute d ≤ 59
  ∧ second d = 0 ∧ microsecond d = 0 ∧ tzinfo d = None.

(** An entry of the snapshot that carries a station number other than the
    requested one. *)
Definition other_station `{Platform} (gauge_number : Z)
    (gauge : gmap string string) : Prop :=
  ∃ no, gauge !! "metadata_station_no" = Some no ∧ no ≠ pretty gauge_number.

(** [get_past_data_epa] from its comprehension on: [csv] is the sequence
    of rows that iterating [csv_reader] yields. *)
Definition import_rows `{Platform} (csv : list (list string))
    (n_last_readings : Z) : result (list Level) :=
  rows ← data_rows csv;
  read_rows [] (slice_from (- n_last_readings) rows).

(** The last item of a batch written under a key. *)
Definition last_with_key `{Platform} (k : string * Z) (batch : list Item)
  : option Item :=
  last (filter (λ it, item_key it = k) batch).

(** ** Sample inputs, on the concrete platform *)

Module Sample.

#[local] Existing Instance Utc.platform.

(** A text file from its lines, each ended by a line feed. *)
Definition unlines (ls : list string) : string :=
  foldr (λ l text, (l ++ String newline text)%string) "" ls.

(** Two comment lines and ten readings a quarter of an hour apart. *)
Definition archive : string := unlines
  [ "#Station 22039 Flesk";
    "#Timestamp;Value;Quality";
    "2024-01-01 00:00:00;1.10;G";
    "2024-01-01 00:15:00;1.11;G";
    "2024-01-01 00:30:00;1.12;G";
    "2024-01-01 00:45:00;1.13;G";
    "2024-01-01 01:00:00;1.14;G";
    "2024-01-01 01:15:00;1.15;G";
    "2024-01-01 01:30:00;1.16;G";
    "2024-01-01 01:45:00;1.17;G";
    "2024-01-01 02:00:00;1.18;G";
    "2024-01-01 02:15:00;1.19;G" ].

Definition reading (h mi : Z) (hundredths : Z) : Level :=
  mk_Level (mk_datetime 2024 1 1 h mi 0 0 None) (Utc.mk_dec hundredths (-2)).

Definition last_three : list Level :=
  [reading 1 45 117; reading 2 0 118; reading 2 15 119].

(** A comment line, a good line and a line whose value is a marker. *)
Definition noisy_archive : string := unlines
  [ "#Timestamp;Value;Quality";
    "2024-01-01 00:00:00;1.10;G";
    "2024-01-01 00:15:00;---;G" ].

(** Three lines, the second with a day that is not a number. *)
Definition bad_date_archive : string := unlines
  [ "2024-01-01 00:00:00;1.10;G";
    "2024-01-xx 00:15:00;1.11;G";
    "2024-01-01 00:30:00;1.12;G" ].

Definition short_archive : string := unlines
  [ "2024-01-01 00:00:00;1.10;G";
    "2024-01-01 00:15:00;1.11;G" ].

Definition noon (d : Z) : datetime := mk_datetime 2024 1 d 12 0 0 0 None.

Definition gauge (station_no stamp value datum : string)
  : gmap string string :=
  {[ "metadata_station_no" := station_no;
     "L1_timestamp" := stamp;
     "L1_ts_value" := value;
     "L1_station_gauge_datum" := datum ]}.

Definition snapshot : list (gmap string string) :=
  [ gauge "22040" "2024-01-01T09:45:00Z" "7.01" "5.5";
    gauge "22039" "2024-01-01T10:00:00Z" "1.52" "0.3" ].

Definition polled : Level :=
  mk_Level (mk_datetime 2024 1 1 10 0 0 0 (Some 0)) (Utc.mk_dec 122 (-2)).

Definition empty_store : Store := mk_Store ∅ [] [].

End Sample.

(** ** A platform with daylight saving time

    The interpreter settings of [Utc], on a machine whose time zone is
    Europe/Dublin: local time is UTC, and one hour ahead of it from 01:00
    UTC on the last Sunday of March to 01:00 UTC on the last Sunday of
    October. *)
Module Dublin.

(** Day of the week of a day count, Sunday being 0: day 0 is a Thursday. *)
Definition weekday (days : Z) : Z := (days + 4) mod 7.

(** The epoch second at 01:00 UTC on the last Sunday of a month that has
    31 days. *)
Definition last_sunday_1am (y m : Z) : Z :=
  let last := Utc.days_from_civil y m 31 in
  (last - weekday last) * 86400 + 3600.

(** The offset of local time from UTC at an epoch second. *)
Definition utcoffset (u : Z) : Z :=
  let '(y, _, _) := Utc.civil_from_days (u / 86400) in
  if (last_sunday_1am y 3 <=? u) && (u <? last_sunday_1am y 10)
  then 3600 else 0.

(** The wall-clock seconds that local time shows at an epoch second. *)
Definition wall (u : Z) : Z := u + utcoffset u.

(** [datetime.timestamp()] on a naive value with [fold = 0], as the
    interpreter computes it: the solution of [wall u = t] when there is
    one (the earlier one of two), and in a gap the later of the two
    candidates. *)
Definition mktime (t : Z) : Z :=
  let a := wall t - t in
  let u1 := t - a in
  let t1 := wall u1 in
  let b := if t1 =? t then wall (u1 - 86400) - (u1 - 86400) else t1 - u1 in
  if (t1 =? t) && (a =? b) then u1
  else
    let u2 := t - b in
    if wall u2 =? t then u2
    else if t1 =? t then u1
    else Z.max u1 u2.

Definition timestamp (d : datetime) : Z :=
  match tzinfo d with
  | Some offset => Utc.wall_seconds d - offset
  | None => mktime (Utc.wall_seconds d)
  end.

Definition fromtimestamp (t : Z) : datetime :=
  Utc.of_wall_seconds (wall t) 0 None.

Definition platform : Platform :=
  Build_Platform Utc.dec Utc.dec_of_str Utc.dec_sub Utc.int_of_str
                 Utc.parser_parse timestamp fromtimestamp Utc.minus_days.

(** Two readings of the night the clocks go forward: 01:30 is a time that
    the local clock never shows. *)
Definition archive : string := Sample.unlines
  [ "2024-03-31 00:45:00;1.10;G";
    "2024-03-31 01:30:00;1.11;G" ].

Definition now : datetime := mk_datetime 2024 4 1 12 0 0 0 None.



End Dublin.

(** ** Further sample inputs *)

Module MoreSamples.

#[local] Existing Instance Utc.platform.

(** Two readings with an empty line between them. *)
Definition blank_archive : string := Sample.unlines
  [ "2024-01-01 00:00:00;1.10;G";
    "";
    "2024-01-01 00:15:00;1.11;G" ].

(** An entry without a station number ahead of station 22039. *)
Definition unnumbered_snapshot : list (gmap string string) :=
  [ {[ "L1_timestamp" := "2024-01-01T09:45:00Z" ]};
    Sample.gauge "22039" "2024-01-01T10:00:00Z" "1.52" "0.3" ].

(** Station 22039 with a marker instead of a value. *)
Definition marker_snapshot : list (gmap string string) :=
  [ Sample.gauge "22039" "2024-01-01T10:00:00Z" "n/a" "0.3" ].

Definition midnight : datetime := mk_datetime 2024 1 1 0 0 0 0 None.

Definition first_of_march : datetime := mk_datetime 2024 3 1 0 0 0 0 None.

Definition ten_readings : list Level :=
  Sample.reading 0 0 110 :: Sample.reading 0 15 111
  :: Sample.reading 0 30 112 :: Sample.reading 0 45 113
  :: Sample.reading 1 0 114 :: Sample.reading 1 15 115
  :: Sample.reading 1 30 116 :: Sample.last_three.

(** A plotting that fails on an empty series. *)
Definition draw (levels : list Level) (title : string) : result string :=
  match levels with
  | [] => Raise IndexError
  | _ => Ok title
  end.

Definition current_event : gmap string string := {[ "current" := "1" ]}.
Definition past_event : gmap string string := {[ "past" := "1" ]}.
Definition other_event : gmap string string := {[ "detail" := "1" ]}.

End MoreSamples.

(** * Properties *)

Section Properties.
Context `{Platform}.

(** ** The conditional put *)

(** What [update_level_db] does on a reading, by the service's answer. *)
Lemma update_level_db_unfold l m fs log :
  update_level_db (Some l) (mk_Store m fs log) =
  let st' := mk_Store m (tail fs) (log ++ [PutItem (flesk_item l)]) in
  match fs with
  | Some e :: _ =>
      if decide (error_code e = Some "ConditionalCheckFailedException")
      then (Ok false, st')
      else (Raise e, st')
  | _ =>
      match m !! item_key (flesk_item l) with
      | Some _ => (Ok false, st')
      | None =>
          (Ok true,
           mk_Store (<[item_key (flesk_item l) := level l]> m) (tail fs)
                    (log ++ [PutItem (flesk_item l)]))
      end
  end.
Proof.
  cbv [update_level_db try_catch mbind M_bind put_item_if_not_exists send
       step lift mret M_ret deref items faults requests conditional_check_failed].
  destruct fs as [|[e|] fs]; simpl.
  - fold (flesk_item l). destruct (m !! item_key (flesk_item l)); reflexivity.
  - destruct e; simpl; try reflexivity.
    destruct (String.eqb_spec code "ConditionalCheckFailedException") as [->|Hne].
    + reflexivity.
    + rewrite decide_False by congruence. reflexivity.
  - fold (flesk_item l). destruct (m !! item_key (flesk_item l)); reflexivity.
Qed.

Lemma update_level_db_None st :
  update_level_db None st = (Raise AttributeError, st).
Proof. reflexivity. Qed.

(** C1: on a store that answers normally, the conditional put of a reading
    returns true exactly when no item exists for its key, and then inserts
    it; when an item exists it returns false and leaves the items as they
    are; after a first put, a second put of a reading with the same time
    (the identical one included) returns false, the level stored first is
    kept, and the store holds one item more than before the first put. *)
Theorem conditional_put_first_write_wins
    (l : Level) (m : gmap (string * Z) Decimal) (log : list Request) :
  let key := item_key (flesk_item l) in
  let st := mk_Store m [] log in
  (update_level_db (Some l) st).1 = Ok (bool_decide (m !! key = None))
  ∧ (m !! key = None →
     items (update_level_db (Some l) st).2 = <[key := level l]> m)
  ∧ (is_Some (m !! key) → items (update_level_db (Some l) st).2 = m)
  ∧ (m !! key = None →
     ∀ l' : Level, time l' = time l →
       let st1 := (update_level_db (Some l) st).2 in
       let again := update_level_db (Some l') st1 in
       again.1 = Ok false
       ∧ items again.2 = items st1
       ∧ items again.2 !! key = Some (level l)
       ∧ size (items again.2) = S (size m)).
Proof.
  intros key st. subst st.
  rewrite update_level_db_unfold. cbn zeta. fold key.
  split; [by destruct (m !! key)|].
  split; [by intros ->|].
  split; [by intros [v ->]|].
  intros Hnone l' Htime. rewrite Hnone. cbn [snd fst items].
  rewrite update_level_db_unfold. cbn zeta.
  assert (item_key (flesk_item l') = key) as ->
    by (unfold key, item_key, flesk_item; simpl; by rewrite Htime).
  rewrite lookup_insert_eq. cbn [snd fst items].
  split; [done|]. split; [done|].
  split; [apply lookup_insert_eq | by apply map_size_insert_None].
Qed.

(** C6: when the service fails the put with an error whose code is not
    ConditionalCheckFailedException, that very error is raised; when the
    code is ConditionalCheckFailedException, or when the condition fails
    because the item exists, the result is false and nothing is raised. *)
Theorem unexpected_store_error_propagates
    (l : Level) (m : gmap (string * Z) Decimal) (e : exn)
    (fs : list (option exn)) (log : list Request) :
  let sent := (log ++ [PutItem (flesk_item l)]) in
  (error_code e ≠ Some "ConditionalCheckFailedException" →
   update_level_db (Some l) (mk_Store m (Some e :: fs) log)
   = (Raise e, mk_Store m fs sent))
  ∧ (error_code e = Some "ConditionalCheckFailedException" →
     update_level_db (Some l) (mk_Store m (Some e :: fs) log)
     = (Ok false, mk_Store m fs sent))
  ∧ (is_Some (m !! item_key (flesk_item l)) →
     update_level_db (Some l) (mk_Store m (None :: fs) log)
     = (Ok false, mk_Store m fs sent)).
Proof.
  intros sent. split; [|split].
  - intros Hcode. rewrite update_level_db_unfold. cbn zeta.
    by rewrite decide_False.
  - intros Hcode. rewrite update_level_db_unfold. cbn zeta.
    by rewrite decide_True.
  - intros [v Hv]. rewrite update_level_db_unfold. cbn zeta.
    by rewrite Hv.
Qed.

(** The items of the table change at most under the key
    [("Flesk", timestamp)] of the submitted reading. *)
Lemma update_level_db_items arg st k :
  k.1 ≠ "Flesk" →
  items (update_level_db arg st).2 !! k = items st !! k.
Proof.
  intros Hk. destruct arg as [l|]; [|reflexivity].
  destruct st as [m fs log]. rewrite update_level_db_unfold. cbn zeta.
  destruct fs as [|[e|] fs]; simpl.
  - destruct (m !! item_key (flesk_item l)); simpl; [done|].
    apply lookup_insert_ne. intros <-. by apply Hk.
  - by case_decide.
  - destruct (m !! item_key (flesk_item l)); simpl; [done|].
    apply lookup_insert_ne. intros <-. by apply Hk.
Qed.

Lemma update_level_db_true arg st :
  (update_level_db arg st).1 = Ok true →
  ∃ l, arg = Some l
       ∧ items (update_level_db arg st).2
         = <[("Flesk", timestamp (time l)) := level l]> (items st).
Proof.
  destruct arg as [l|]; [|discriminate].
  intros Htrue. exists l. split; [done|]. revert Htrue.
  destruct st as [m fs log]. rewrite update_level_db_unfold. cbn zeta.
  destruct fs as [|[e|] fs]; simpl.
  - by destruct (m !! item_key (flesk_item l)).
  - by case_decide.
  - by destruct (m !! item_key (flesk_item l)).
Qed.

(** C10: a [Level] is a time and a level and nothing more; and whatever
    gauge number is polled, putting the polled reading changes no item
    outside the partition "Flesk", and when it reports true the reading
    sits under the key ("Flesk", timestamp). *)
Theorem live_readings_stored_under_Flesk
    (gauge_number : Z) (gauges : list (gmap string string)) (st : Store) :
  let run :=
    (latest ← lift (get_latest_level gauge_number gauges);
     update_level_db latest) st in
  (∀ l : Level, l = mk_Level (time l) (level l))
  ∧ (∀ k, k.1 ≠ "Flesk" → items run.2 !! k = items st !! k)
  ∧ (run.1 = Ok true →
     ∃ l, get_latest_level gauge_number gauges = Ok (Some l)
          ∧ items run.2
            = <[("Flesk", timestamp (time l)) := level l]> (items st)).
Proof.
  intros run. split; [by intros []|].
  subst run. cbv [mbind M_bind lift].
  destruct (get_latest_level gauge_number gauges) as [latest|e]; simpl.
  - pose proof (update_level_db_items latest st) as Hitems.
    pose proof (update_level_db_true latest st) as Htrue.
    destruct (update_level_db latest st) as [[b|e] st']; simpl in *.
    + split; [done|]. intros Hb. destruct (Htrue Hb) as (l & -> & Hl). eauto.
    + split; [done|]. discriminate.
  - split; [done|]. discriminate.
Qed.

(** ** The archive importer *)

Lemma slice_from_last {A} (n : Z) (l : list A) :
  1 ≤ n → slice_from (- n) l = last_n (Z.to_nat n) l.
Proof.
  intros Hn. unfold slice_from, last_n.
  destruct (Z.ltb_spec (- n) 0) as [_|?]; [|lia].
  f_equal. lia.
Qed.

Lemma slice_from_0 {A} (l : list A) : slice_from (- 0) l = l.
Proof. unfold slice_from. simpl. by rewrite Z.min_l by lia. Qed.

Lemma length_last_n {A} (n : nat) (l : list A) : (length (last_n n l) ≤ n)%nat.
Proof. unfold last_n. rewrite length_drop. lia. Qed.

Lemma data_rows_filter csv :
  Forall (λ row, row ≠ []) csv →
  data_rows csv = Ok (filter (λ row, ¬ is_comment row) csv).
Proof.
  induction 1 as [|row rest Hrow _ IH]; [done|].
  destruct row as [|first fields]; [done|].
  cbn [data_rows getitem lookup list_lookup mbind result_bind].
  rewrite IH. cbn [mbind result_bind mret result_ret].
  rewrite filter_cons. cbn [is_comment].
  by destruct (contains "#" first).
Qed.

Lemma data_rows_blank csv :
  [] ∈ csv → data_rows csv = Raise IndexError.
Proof.
  induction csv as [|row rest IH]; [by intros ?%elem_of_nil|].
  intros [<-|Hin]%elem_of_cons; [done|].
  destruct row as [|first fields]; [done|].
  cbn [data_rows getitem lookup list_lookup mbind result_bind].
  by rewrite IH.
Qed.

Lemma read_row_reading levels row t :
  row_time row = Ok t →
  read_row levels row = Ok (levels ++ option_list (reading_of row)).
Proof.
  intros Ht. unfold read_row, reading_of. rewrite Ht.
  cbn [mbind result_bind].
  destruct (row_level row t) as [l|e]; cbn; [done|].
  by rewrite app_nil_r.
Qed.

Lemma read_rows_app levels rows1 rows2 :
  read_rows levels (rows1 ++ rows2)
  = (levels' ← read_rows levels rows1; read_rows levels' rows2).
Proof.
  revert levels. induction rows1 as [|row rows1 IH]; intros levels; [done|].
  cbn [read_rows app]. destruct (read_row levels row); cbn; [apply IH|done].
Qed.

Lemma read_rows_readings levels rows :
  Forall (λ row, is_ok (row_time row)) rows →
  read_rows levels rows = Ok (levels ++ omap reading_of rows).
Proof.
  intros Hrows. revert levels.
  induction Hrows as [|row rest [t Ht] _ IH]; intros levels.
  - by rewrite app_nil_r.
  - cbn [read_rows]. rewrite (read_row_reading _ _ t Ht).
    cbn [mbind result_bind]. rewrite IH, <-app_assoc. f_equal.
    cbn [omap list_omap]. by destruct (reading_of row).
Qed.

Lemma read_rows_raises levels rows row :
  row ∈ rows → raises (row_time row) → raises (read_rows levels rows).
Proof.
  intros Hin [e He]. revert levels.
  induction rows as [|r rest IH]; intros levels; [by apply elem_of_nil in Hin|].
  cbn [read_rows]. apply elem_of_cons in Hin as [<-|Hin].
  - unfold read_row. rewrite He. by exists e.
  - destruct (read_row levels r) as [levels'|e']; cbn; [by apply IH|by exists e'].
Qed.

Lemma length_omap_le {A B} (f : A → option B) (l : list A) :
  (length (omap f l) ≤ length l)%nat.
Proof.
  induction l as [|x l IH]; [done|].
  cbn [omap list_omap]. destruct (f x); simpl; lia.
Qed.

Lemma split_not_nil sep s : split sep s ≠ [].
Proof.
  destruct s as [|c s]; [done|]. simpl.
  destruct (Ascii.eqb c sep); [done|]. by destruct (split sep s).
Qed.

Lemma malformed_row_time row :
  malformed_date_time row → raises (row_time row).
Proof.
  intros (date & field & Hdate & Hfield & i & Hi).
  unfold row_time, getitem. rewrite Hdate, Hfield. cbn [mbind result_bind].
  destruct (split ";" field) as [|clock more] eqn:Hsplit;
    [by apply split_not_nil in Hsplit|].
  cbn [lookup list_lookup head default from_option] in *.
  unfold int, not_an_integer, id in *.
  destruct Hi as [[Hlt Hi]|[Hlt Hi]].
  - destruct i as [|[|[|i]]]; [| | |lia];
      repeat (case_match; cbn [mbind result_bind];
              try (eexists; reflexivity); simplify_eq).
  - destruct i as [|[|i]]; [| |lia];
      repeat (case_match; cbn [mbind result_bind];
              try (eexists; reflexivity); simplify_eq).
Qed.

(** C5, amended: for a count of at least one, rows read from the archive
    none of which is empty, and well-formed date and time fields in the
    last N non-comment rows, the importer returns the readings of those
    rows whose value parses, in file order, and so at most N of them. *)
Theorem get_past_data_epa_last_n (csv : list (list string)) (n : Z) :
  let kept := last_n (Z.to_nat n) (filter (λ row, ¬ is_comment row) csv) in
  1 ≤ n →
  Forall (λ row, row ≠ []) csv →
  Forall (λ row, is_ok (row_time row)) kept →
  import_rows csv n = Ok (omap reading_of kept)
  ∧ Z.of_nat (length (omap reading_of kept)) ≤ n.
Proof.
  intros kept Hn Hblank Htimes. split.
  - unfold import_rows. rewrite data_rows_filter by done.
    cbn [mbind result_bind]. rewrite slice_from_last by done.
    by rewrite read_rows_readings.
  - pose proof (length_omap_le reading_of kept) as Hread.
    pose proof (length_last_n (Z.to_nat n)
      (filter (λ row, ¬ is_comment row) csv)) as Hlast.
    fold kept in Hlast. lia.
Qed.

Lemma row_level_value row t v :
  value_field row = Some v →
  row_level row t = (d ← to_Decimal v; mret (mk_Level t d)).
Proof.
  unfold value_field, row_level, getitem.
  destruct (row !! 1%nat) as [field|]; [|done].
  cbn [mbind option_bind result_bind]. by intros ->.
Qed.

(** C8: inside the loop, a row whose date and time are readable but whose
    value field is not a decimal is skipped: the import goes on exactly as
    if the row were not there; a comment row is left out by the filter; and
    a row whose date, time and value are all readable adds its reading. *)
Theorem unparseable_value_row_is_dropped :
  (∀ levels before row after t v,
     row_time row = Ok t →
     value_field row = Some v → Decimal_of_str v = None →
     read_rows levels (before ++ row :: after)
     = read_rows levels (before ++ after))
  ∧ (∀ before row after,
       is_comment row →
       data_rows (before ++ row :: after) = data_rows (before ++ after))
  ∧ (∀ levels row after t v d,
       row_time row = Ok t →
       value_field row = Some v → Decimal_of_str v = Some d →
       read_rows levels (row :: after)
       = read_rows (levels ++ [mk_Level t d]) after).
Proof.
  split; [|split].
  - intros levels before row after t v Ht Hv Hdec.
    rewrite !read_rows_app. destruct (read_rows levels before) as [ls|e]; [|done].
    cbn [mbind result_bind read_rows]. unfold read_row. rewrite Ht.
    cbn [mbind result_bind]. rewrite (row_level_value _ _ v Hv).
    unfold to_Decimal. by rewrite Hdec.
  - intros before row after Hcomment.
    induction before as [|r before IH].
    + destruct row as [|first fields]; [done|].
      cbn [app data_rows getitem lookup list_lookup mbind result_bind].
      cbn [is_comment] in Hcomment. destruct (contains "#" first); [|done].
      by destruct (data_rows after).
    + cbn [app data_rows]. by rewrite IH.
  - intros levels row after t v d Ht Hv Hdec.
    cbn [read_rows]. unfold read_row. rewrite Ht.
    cbn [mbind result_bind]. rewrite (row_level_value _ _ v Hv).
    unfold to_Decimal. by rewrite Hdec.
Qed.

(** C9: a row whose date and time are readable never makes the loop raise,
    whatever its value field holds; but when one of the rows the loop
    visits, among the rows read from the archive, has a malformed date or
    time, the import raises. *)
Theorem malformed_date_time_aborts_import :
  (∀ levels row, is_ok (row_time row) → is_ok (read_row levels row))
  ∧ (∀ csv n row,
       row ∈ slice_from (- n) (filter (λ row, ¬ is_comment row) csv) →
       malformed_date_time row →
       raises (import_rows csv n)).
Proof.
  split.
  - intros levels row [t Ht]. rewrite (read_row_reading _ _ t Ht). by eexists.
  - intros csv n row Hin Hbad. unfold import_rows.
    destruct (decide ([] ∈ csv)) as [Hblank|Hblank].
    + rewrite data_rows_blank by done. by eexists.
    + rewrite data_rows_filter.
      * cbn [mbind result_bind].
        eapply read_rows_raises; [done|]. by apply malformed_row_time.
      * apply Forall_forall. by intros r Hr ->.
Qed.

(** ** The range query *)

#[local] Instance by_timestamp_trans : Transitive by_timestamp.
Proof. unfold by_timestamp. intros a b c. lia. Qed.

#[local] Instance by_timestamp_total : Total by_timestamp.
Proof. unfold by_timestamp. intros a b. lia. Qed.

Lemma elem_of_query_items river since m it :
  it ∈ query_items river since m
  ↔ river_name it = river
    ∧ m !! item_key it = Some (item_level it)
    ∧ since < item_timestamp it.
Proof.
  unfold query_items. rewrite list_elem_of_fmap. split.
  - intros ([[r ts] lvl] & -> & Hin).
    rewrite merge_sort_Permutation in Hin.
    apply list_elem_of_filter in Hin as [[Hr Hts] Hin].
    apply elem_of_map_to_list in Hin. simpl in *. done.
  - destruct it as [r ts lvl]. unfold item_key. simpl.
    intros (<- & Hm & Hts). exists (r, ts, lvl). split; [done|].
    rewrite merge_sort_Permutation. apply list_elem_of_filter.
    split; [done|]. by apply elem_of_map_to_list.
Qed.

Lemma query_items_empty river since : query_items river since ∅ = [].
Proof. unfold query_items. by rewrite map_to_list_empty. Qed.

Lemma strictly_sorted_keys river (kvs : list (string * Z * Decimal)) :
  StronglySorted by_timestamp kvs →
  NoDup kvs.*1 →
  Forall (λ kv, kv.1.1 = river) kvs →
  StronglySorted (λ a b : string * Z * Decimal, a.1.2 < b.1.2) kvs.
Proof.
  induction 1 as [|kv kvs Hsorted IH Hle]; [constructor|].
  rewrite fmap_cons, NoDup_cons, Forall_cons.
  intros [Hfresh Hdup] [Hkv Hriver]. constructor; [by apply IH|].
  apply Forall_forall. intros kv' Hin.
  pose proof (proj1 (Forall_forall _ _) Hle kv' Hin) as Hle'.
  pose proof (proj1 (Forall_forall _ _) Hriver kv' Hin) as Hr'.
  unfold by_timestamp in Hle'.
  destruct (decide (kv.1.2 = kv'.1.2)) as [Heq|]; [|lia].
  destruct Hfresh. apply list_elem_of_fmap. exists kv'. split; [|done].
  destruct kv as [[r ts] lvl], kv' as [[r' ts'] lvl']. simpl in *. congruence.
Qed.

Lemma query_items_sorted river since m :
  StronglySorted (λ a b, item_timestamp a < item_timestamp b)
                 (query_items river since m).
Proof.
  unfold query_items.
  apply (StronglySorted_fmap _ (λ a b : string * Z * Decimal, a.1.2 < b.1.2));
    [done|].
  apply (strictly_sorted_keys river).
  - apply StronglySorted_merge_sort; apply _.
  - rewrite merge_sort_Permutation.
    apply (sublist_NoDup _ (map_to_list m).*1);
      [apply NoDup_fst_map_to_list|].
    apply fmap_sublist, sublist_filter.
  - apply Forall_forall. intros kv Hin.
    rewrite merge_sort_Permutation in Hin.
    by apply list_elem_of_filter in Hin as [[Hr _] _].
Qed.

Lemma get_past_data_dynamo_healthy river since_date m log :
  get_past_data_dynamo river since_date (mk_Store m [] log)
  = (Ok (level_of_item <$> query_items river (timestamp since_date) m),
     mk_Store m [] (log ++ [Query river (timestamp since_date)])).
Proof. reflexivity. Qed.

(** C7: on a store that answers normally, the range query returns the
    readings of exactly those items of the station whose timestamp is
    strictly greater than the bound, in ascending order of timestamp; with
    items at 100, 200 and 300 and the bound at 200, only the one at 300. *)
Theorem range_query_is_exclusive
    (river : string) (since_date : datetime)
    (m : gmap (string * Z) Decimal) (log : list Request) :
  (∃ response,
     get_past_data_dynamo river since_date (mk_Store m [] log)
     = (Ok (level_of_item <$> response),
        mk_Store m [] (log ++ [Query river (timestamp since_date)]))
     ∧ (∀ it, it ∈ response
              ↔ river_name it = river
                ∧ m !! item_key it = Some (item_level it)
                ∧ timestamp since_date < item_timestamp it)
     ∧ StronglySorted (λ a b, item_timestamp a < item_timestamp b) response)
  ∧ (timestamp since_date = 200 →
     ∀ d1 d2 d3 : Decimal,
       (get_past_data_dynamo "Flesk" since_date
          (mk_Store (<[("Flesk", 100) := d1]>
                       (<[("Flesk", 200) := d2]>
                          (<[("Flesk", 300) := d3]> ∅))) [] log)).1
       = Ok [mk_Level (fromtimestamp 300) d3]).
Proof.
  split.
  - exists (query_items river (timestamp since_date) m).
    split; [apply get_past_data_dynamo_healthy|].
    split; [intros it; apply elem_of_query_items|apply query_items_sorted].
  - intros Hsince d1 d2 d3. rewrite get_past_data_dynamo_healthy, Hsince.
    reflexivity.
Qed.

(** ** Backfill reconciliation *)

Lemma new_river_levels_filter epa_levels dynamo_levels :
  new_river_levels epa_levels dynamo_levels
  = filter (λ l, time l ∉ time <$> dynamo_levels) epa_levels.
Proof.
  unfold new_river_levels. apply list_filter_iff. intros l.
  by rewrite elem_of_list_to_set.
Qed.

Lemma new_river_levels_nil epa_levels dynamo_levels :
  (∀ l, l ∈ epa_levels → time l ∈ time <$> dynamo_levels) →
  new_river_levels epa_levels dynamo_levels = [].
Proof.
  intros Hall. rewrite new_river_levels_filter.
  induction epa_levels as [|l epa IH]; [done|].
  rewrite filter_cons_False.
  - apply IH. intros l' Hl'. apply Hall. by right.
  - intros Hnot. apply Hnot, Hall. by left.
Qed.

(** C2: the new readings are the candidates, in their order, whose time is
    not the time of any reading of the existing window; for a window at
    T1 and T2 and candidates at T1, T2 and T3, that is the candidate at T3
    alone. *)
Theorem new_river_levels_is_difference (epa_levels dynamo_levels : list Level) :
  new_river_levels epa_levels dynamo_levels
  = filter (λ l, time l ∉ time <$> dynamo_levels) epa_levels
  ∧ (∀ l, l ∈ new_river_levels epa_levels dynamo_levels
          ↔ l ∈ epa_levels ∧ ∀ l', l' ∈ dynamo_levels → time l' ≠ time l)
  ∧ (∀ (T1 T2 T3 : datetime) (a1 a2 a3 b1 b2 : Decimal),
       T3 ≠ T1 → T3 ≠ T2 →
       new_river_levels
         [mk_Level T1 a1; mk_Level T2 a2; mk_Level T3 a3]
         [mk_Level T1 b1; mk_Level T2 b2]
       = [mk_Level T3 a3]).
Proof.
  split; [apply new_river_levels_filter|]. split.
  - intros l. rewrite new_river_levels_filter, list_elem_of_filter.
    rewrite list_elem_of_fmap. split.
    + intros [Hnot Hin]. split; [done|]. intros l' Hl' Heq.
      apply Hnot. by exists l'.
    + intros [Hin Hnot]. split; [|done]. intros (l' & Heq & Hl').
      by apply (Hnot l').
  - intros T1 T2 T3 a1 a2 a3 b1 b2 H31 H32.
    rewrite new_river_levels_filter. cbn [fmap list_fmap time].
    rewrite filter_cons_False by (intros Hnot; apply Hnot; by left).
    rewrite filter_cons_False
      by (intros Hnot; apply Hnot; right; by left).
    rewrite filter_cons_True; [done|]. cbn [time].
    intros [?|[?|?%elem_of_nil]%elem_of_cons]%elem_of_cons; done.
Qed.

Lemma batch_update_level_db_Flesk l levels m log :
  batch_update_level_db "Flesk" (l :: levels) (mk_Store m [] log)
  = (Ok (),
     mk_Store (write_all m (flesk_item <$> l :: levels)) []
              (log ++ [BatchWrite (flesk_item <$> l :: levels)])).
Proof. reflexivity. Qed.

(** The backfill handler on a store that answers normally. *)
Lemma update_past_levels_table_handler_healthy text now epa_levels m log :
  get_past_data_epa text 3000 = Ok epa_levels →
  let asked := log ++ [Query "Flesk" (timestamp (minus_days now 50))] in
  let new := new_river_levels epa_levels (dynamo_window now m) in
  update_past_levels_table_handler text now (mk_Store m [] log)
  = match new with
    | [] => (Ok false, mk_Store m [] asked)
    | _ =>
        (Ok true,
         mk_Store (write_all m (flesk_item <$> new)) []
                  (asked ++ [BatchWrite (flesk_item <$> new)]))
    end.
Proof.
  intros Hepa asked new. unfold update_past_levels_table_handler.
  cbv [mbind M_bind lift]. rewrite Hepa, get_past_data_dynamo_healthy.
  fold (dynamo_window now m). fold new. fold asked.
  destruct new as [|l new']; [done|].
  by rewrite batch_update_level_db_Flesk.
Qed.

Lemma new_river_levels_elem epa_levels dynamo_levels l :
  l ∈ new_river_levels epa_levels dynamo_levels
  ↔ l ∈ epa_levels ∧ time l ∉ time <$> dynamo_levels.
Proof.
  rewrite new_river_levels_filter, list_elem_of_filter. tauto.
Qed.

Lemma write_all_is_Some m batch k :
  is_Some (m !! k) ∨ k ∈ item_key <$> batch →
  is_Some (write_all m batch !! k).
Proof.
  unfold write_all. revert m.
  induction batch as [|it batch IH]; intros m.
  - intros [?|?%elem_of_nil]; done.
  - cbn [foldl fmap list_fmap]. intros Hk. apply IH.
    destruct (decide (item_key it = k)) as [<-|Hne].
    + left. rewrite lookup_insert_eq. by eexists.
    + rewrite lookup_insert_ne by done.
      destruct Hk as [?|[?|?]%elem_of_cons]; by auto.
Qed.





(** ** The live poller *)

Lemma get_latest_level_absent gauge_number gauges :
  Forall (λ gauge : gmap string string,
            ∃ no, gauge !! "metadata_station_no" = Some no
                  ∧ no ≠ pretty gauge_number) gauges →
  get_latest_level gauge_number gauges = Ok None.
Proof.
  induction 1 as [|gauge rest (no & Hno & Hne) _ IH]; [done|].
  cbn [get_latest_level]. unfold gauge_get. rewrite Hno.
  cbn [mbind result_bind].
  by destruct (String.eqb_spec no (pretty gauge_number)).
Qed.

(** C4, at a snapshot that lacks station 22039: the poller returns [None]
    without raising, but the live handler then raises [AttributeError]
    instead of reporting an outcome. *)
Theorem absent_station_raises_in_live_mode (st : Store) :
  let gauges : list (gmap string string) :=
    [ {[ "metadata_station_no" := "22040";
         "L1_timestamp" := "2024-01-01T10:00:00Z";
         "L1_ts_value" := "1.52";
         "L1_station_gauge_datum" := "0.3" ]} ] in
  get_latest_level FLESK_GAUGE_NUMBER gauges = Ok None
  ∧ update_current_levels_table_handler gauges st = (Raise AttributeError, st).
Proof.
  intros gauges.
  assert (get_latest_level FLESK_GAUGE_NUMBER gauges = Ok None) as Hnone.
  { apply get_latest_level_absent. repeat constructor.
    exists "22040". split; [by vm_compute|]. by vm_compute. }
  split; [done|].
  unfold update_current_levels_table_handler. cbv [mbind M_bind lift].
  by rewrite Hnone.
Qed.

End Properties.

(** * Further properties of the code *)

Section MoreProperties.
Context `{Platform}.

(** ** Conditional put *)

(** X1: whatever it is given and whatever the service answers,
    [update_level_db] never changes or removes an item that is stored. *)
Theorem update_level_db_keeps_items (arg : option Level) (st : Store)
    (k : string * Z) (v : Decimal) :
  items st !! k = Some v →
  items (update_level_db arg st).2 !! k = Some v.
Proof.
  intros Hk. destruct arg as [l|]; [|done].
  destruct st as [m fs log]. rewrite update_level_db_unfold. cbn zeta.
  cbn [items] in Hk.
  destruct fs as [|[e|] fs]; cbn [tail].
  - destruct (m !! item_key (flesk_item l)) eqn:Hkey; cbn [snd items]; [done|].
    rewrite lookup_insert_ne; [done|]. intros <-. congruence.
  - by case_decide.
  - destruct (m !! item_key (flesk_item l)) eqn:Hkey; cbn [snd items]; [done|].
    rewrite lookup_insert_ne; [done|]. intros <-. congruence.
Qed.

(** ** Batch put *)

Lemma write_all_snoc m batch it :
  write_all m (batch ++ [it])
  = <[item_key it := item_level it]> (write_all m batch).
Proof. unfold write_all. by rewrite foldl_app. Qed.

Lemma write_all_lookup m batch k :
  write_all m batch !! k
  = match last_with_key k batch with
    | Some it => Some (item_level it)
    | None => m !! k
    end.
Proof.
  unfold last_with_key.
  induction batch as [|it batch IH] using rev_ind; [done|].
  rewrite write_all_snoc, filter_app, filter_cons, filter_nil.
  destruct (decide (item_key it = k)) as [<-|Hne].
  - by rewrite last_snoc, lookup_insert_eq.
  - by rewrite app_nil_r, lookup_insert_ne.
Qed.

(** X2: on a store that answers normally, after [batch_update_level_db]
    a key holds the level of the last submitted reading with that key, and
    its old content when no submitted reading has that key: the last write
    wins, also over an item that was already stored. *)
Theorem batch_update_last_write_wins
    (river : string) (levels : list Level)
    (m : gmap (string * Z) Decimal) (log : list Request) (k : string * Z) :
  let batch := (λ l, mk_Item river (timestamp (time l)) (level l)) <$> levels in
  items (batch_update_level_db river levels (mk_Store m [] log)).2 !! k
  = match last_with_key k batch with
    | Some it => Some (item_level it)
    | None => m !! k
    end.
Proof.
  intros batch. rewrite <-write_all_lookup.
  unfold batch_update_level_db. fold batch.
  by destruct batch.
Qed.

Lemma write_all_twice m batch :
  write_all (write_all m batch) batch = write_all m batch.
Proof.
  apply map_eq. intros k. rewrite !write_all_lookup.
  by destruct (last_with_key k batch).
Qed.

(** X3: on a store that answers normally, submitting the same batch a
    second time leaves the items as the first submission left them. *)
Theorem batch_update_twice_same_items
    (river : string) (levels : list Level)
    (m : gmap (string * Z) Decimal) (log : list Request) :
  let once := batch_update_level_db river levels (mk_Store m [] log) in
  let twice := batch_update_level_db river levels once.2 in
  once.1 = Ok () ∧ twice.1 = Ok () ∧ items twice.2 = items once.2.
Proof.
  unfold batch_update_level_db.
  destruct ((λ l, mk_Item river (timestamp (time l)) (level l)) <$> levels)
    as [|it batch] eqn:Hbatch; [done|].
  cbn. repeat split. apply (write_all_twice m (it :: batch)).
Qed.

(** X4: after a batch put on a store that answers normally, the
    conditional put of any reading whose time is the time of a submitted
    reading is refused: it returns false and changes no item. *)
Theorem conditional_put_after_batch_is_refused
    (levels : list Level) (l l' : Level)
    (m : gmap (string * Z) Decimal) (log : list Request) :
  l ∈ levels → time l' = time l →
  let st := (batch_update_level_db "Flesk" levels (mk_Store m [] log)).2 in
  (update_level_db (Some l') st).1 = Ok false
  ∧ items (update_level_db (Some l') st).2 = items st.
Proof.
  intros Hl Htime st.
  assert (∃ log', st = mk_Store (write_all m (flesk_item <$> levels)) [] log')
    as [log' ->].
  { unfold st, batch_update_level_db. destruct levels; by eexists. }
  rewrite update_level_db_unfold. cbn zeta.
  destruct (write_all_is_Some m (flesk_item <$> levels)
              (item_key (flesk_item l'))) as [v Hv].
  { right. apply list_elem_of_fmap. exists (flesk_item l). split.
    - unfold item_key, flesk_item. cbn. by rewrite Htime.
    - by apply list_elem_of_fmap_2. }
  by rewrite Hv.
Qed.

(** ** The archive importer *)

(** The importer is [import_rows] on the rows of the file. *)
Lemma get_past_data_epa_import_rows text n :
  get_past_data_epa text n = import_rows (csv_reader text) n.
Proof. reflexivity. Qed.

(** X5: an empty row anywhere among the rows read from the archive (what
    the reader yields for a blank line), even outside the rows that are
    asked for, makes the import raise [IndexError]. *)
Theorem empty_row_aborts_import (csv : list (list string)) (n : Z) :
  [] ∈ csv → import_rows csv n = Raise IndexError.
Proof.
  intros Hblank. unfold import_rows. by rewrite data_rows_blank.
Qed.

Lemma slice_from_all {A} (n : Z) (l : list A) :
  n = 0 ∨ Z.of_nat (length l) ≤ n → slice_from (- n) l = l.
Proof.
  intros [->|Hn]; [apply slice_from_0|].
  unfold slice_from. cbv zeta.
  destruct (Z.ltb_spec (- n) 0) as [?|?].
  - assert (Z.to_nat (Z.max (Z.of_nat (length l) + - n) 0) = 0%nat) as ->
      by lia. done.
  - assert (Z.to_nat (Z.min (- n) (Z.of_nat (length l))) = 0%nat) as ->
      by lia. done.
Qed.

(** X6: when the count is zero, or is at least the number of non-comment
    rows, the importer visits every non-comment row: for rows none of
    which is empty and which all have readable dates and times, it returns
    the readings of all rows whose value parses. *)
Theorem import_rows_whole_file (csv : list (list string)) (n : Z) :
  let rows := filter (λ row, ¬ is_comment row) csv in
  n = 0 ∨ Z.of_nat (length rows) ≤ n →
  Forall (λ row, row ≠ []) csv →
  Forall (λ row, is_ok (row_time row)) rows →
  import_rows csv n = Ok (omap reading_of rows).
Proof.
  intros rows Hn Hblank Htimes. unfold import_rows.
  rewrite data_rows_filter by done. cbn [mbind result_bind].
  fold rows. rewrite slice_from_all by done.
  by rewrite read_rows_readings.
Qed.

Lemma read_rows_inv levels rows out :
  read_rows levels rows = Ok out →
  out = levels ++ omap reading_of rows
  ∧ Forall (λ row, is_ok (row_time row)) rows.
Proof.
  revert levels. induction rows as [|row rows IH]; intros levels.
  - intros [= <-]. by rewrite app_nil_r.
  - cbn [read_rows].
    destruct (row_time row) as [t|e] eqn:Ht.
    + rewrite (read_row_reading _ _ t Ht). cbn [mbind result_bind].
      intros [-> Hrows]%IH. split.
      * rewrite <-app_assoc. f_equal. cbn [omap list_omap].
        by destruct (reading_of row).
      * constructor; [by exists t|done].
    + unfold read_row. by rewrite Ht.
Qed.

(** X7: whenever the import of the rows read from the archive returns,
    for any count, what it returns is the readings, in file order, of the
    rows of the slice [rows[- n_last_readings:]] of the non-comment rows
    whose value parses; and then no row is empty and every row of the
    slice has a readable date and time. *)
Theorem import_rows_returns_slice (csv : list (list string)) (n : Z)
    (levels : list Level) :
  let visited := slice_from (- n) (filter (λ row, ¬ is_comment row) csv) in
  import_rows csv n = Ok levels →
  levels = omap reading_of visited
  ∧ ([] ∉ csv)
  ∧ Forall (λ row, is_ok (row_time row)) visited.
Proof.
  intros visited. unfold import_rows.
  destruct (decide ([] ∈ csv)) as [Hblank|Hblank].
  { by rewrite data_rows_blank. }
  rewrite data_rows_filter
    by (apply Forall_forall; by intros row Hrow ->).
  cbn [mbind result_bind]. fold visited.
  intros [-> Hrows]%read_rows_inv. done.
Qed.

Lemma datetime_new_on_calendar y m d h mi t :
  datetime_new y m d h mi = Ok t → on_calendar t.
Proof.
  unfold datetime_new. case_match eqn:Hrange; [|done].
  intros [= <-]. unfold on_calendar. cbn.
  rewrite !andb_true_iff, !Z.leb_le in Hrange.
  repeat split; first [lia | reflexivity].
Qed.

Lemma row_time_on_calendar row t : row_time row = Ok t → on_calendar t.
Proof.
  unfold row_time. intros Ht.
  repeat match type of Ht with
         | mbind _ ?c = Ok _ =>
             destruct c; cbn [mbind result_bind] in Ht; [|done]
         end.
  by eapply datetime_new_on_calendar.
Qed.

Lemma reading_of_time row l :
  reading_of row = Some l → row_time row = Ok (time l).
Proof.
  unfold reading_of. destruct (row_time row) as [t|]; [|done].
  unfold row_level.
  destruct (getitem row 1) as [field|]; [|done]. cbn [mbind result_bind].
  destruct (getitem (split ";" field) 1) as [v|]; [|done].
  cbn [mbind result_bind].
  destruct (to_Decimal v) as [d|]; [|done]. cbn. by intros [= <-].
Qed.

(** X8: every reading the importer returns has a naive time on the
    calendar, on a full minute: year 1..9999, a month, a day of that month,
    an hour, a minute, zero seconds, no time zone. *)
Theorem get_past_data_epa_times_on_calendar (text : string) (n : Z)
    (levels : list Level) (l : Level) :
  get_past_data_epa text n = Ok levels →
  l ∈ levels → on_calendar (time l).
Proof.
  intros Hget Hl.
  unfold get_past_data_epa in Hget.
  destruct (data_rows (csv_reader text)) as [rows|]; [|done].
  cbn [mbind result_bind] in Hget.
  apply read_rows_inv in Hget as [-> _]. cbn [app] in Hl.
  apply list_elem_of_omap in Hl as (row & _ & Hrow).
  apply reading_of_time in Hrow. by eapply row_time_on_calendar.
Qed.

(** ** The live poller *)

Lemma get_latest_level_skip gauge_number before rest :
  Forall (other_station gauge_number) before →
  get_latest_level gauge_number (before ++ rest)
  = get_latest_level gauge_number rest.
Proof.
  induction 1 as [|gauge before (no & Hno & Hne) _ IH]; [done|].
  cbn [app get_latest_level]. unfold gauge_get. rewrite Hno.
  cbn [mbind result_bind].
  by destruct (String.eqb_spec no (pretty gauge_number)).
Qed.

(** X9: the poller answers from the first entry of the snapshot whose
    station number is the requested one: the level is the entry's value
    minus its datum, at the parsed time; the entries after it are not
    looked at. *)
Theorem get_latest_level_first_match
    (gauge_number : Z) (before after : list (gmap string string))
    (gauge : gmap string string) (stamp value datum : string)
    (t : datetime) (raw offset : Decimal) :
  Forall (other_station gauge_number) before →
  gauge !! "metadata_station_no" = Some (pretty gauge_number) →
  gauge !! "L1_timestamp" = Some stamp → parser_parse stamp = Some t →
  gauge !! "L1_ts_value" = Some value → Decimal_of_str value = Some raw →
  gauge !! "L1_station_gauge_datum" = Some datum →
  Decimal_of_str datum = Some offset →
  get_latest_level gauge_number (before ++ gauge :: after)
  = Ok (Some (mk_Level t (Decimal_sub raw offset))).
Proof.
  intros Hbefore Hno Hstamp Ht Hvalue Hraw Hdatum Hoffset.
  rewrite get_latest_level_skip by done.
  cbn [get_latest_level]. unfold gauge_get, to_Decimal.
  rewrite Hno. cbn [mbind result_bind]. rewrite String.eqb_refl.
  rewrite Hstamp. cbn [mbind result_bind]. rewrite Ht.
  cbn [from_option mbind result_bind].
  rewrite Hvalue. cbn [mbind result_bind]. rewrite Hraw.
  cbn [mbind result_bind]. rewrite Hdatum. cbn [mbind result_bind].
  by rewrite Hoffset.
Qed.

(** X10: an entry without a station number that comes before any entry of
    the requested station makes the poll raise [KeyError], also when the
    station is listed further on. *)
Theorem get_latest_level_missing_station_number
    (gauge_number : Z) (before after : list (gmap string string))
    (gauge : gmap string string) :
  Forall (other_station gauge_number) before →
  gauge !! "metadata_station_no" = None →
  get_latest_level gauge_number (before ++ gauge :: after)
  = Raise (KeyError "metadata_station_no").
Proof.
  intros Hbefore Hno. rewrite get_latest_level_skip by done.
  cbn [get_latest_level]. unfold gauge_get. by rewrite Hno.
Qed.

(** X11: when the first entry of the requested station has a value that is
    not a decimal, the poll raises [InvalidOperation]; it does not fall
    back to "not found" or to a later entry. *)
Theorem get_latest_level_bad_value
    (gauge_number : Z) (before after : list (gmap string string))
    (gauge : gmap string string) (stamp value : string) (t : datetime) :
  Forall (other_station gauge_number) before →
  gauge !! "metadata_station_no" = Some (pretty gauge_number) →
  gauge !! "L1_timestamp" = Some stamp → parser_parse stamp = Some t →
  gauge !! "L1_ts_value" = Some value → Decimal_of_str value = None →
  get_latest_level gauge_number (before ++ gauge :: after)
  = Raise InvalidOperation.
Proof.
  intros Hbefore Hno Hstamp Ht Hvalue Hraw.
  rewrite get_latest_level_skip by done.
  cbn [get_latest_level]. unfold gauge_get, to_Decimal.
  rewrite Hno. cbn [mbind result_bind]. rewrite String.eqb_refl.
  rewrite Hstamp. cbn [mbind result_bind]. rewrite Ht.
  cbn [from_option mbind result_bind].
  rewrite Hvalue. cbn [mbind result_bind]. by rewrite Hraw.
Qed.

(** ** Live mode *)

Lemma update_current_levels_table_handler_found gauges l st :
  get_latest_level FLESK_GAUGE_NUMBER gauges = Ok (Some l) →
  update_current_levels_table_handler gauges st = update_level_db (Some l) st.
Proof.
  intros Hl. unfold update_current_levels_table_handler.
  cbv [mbind M_bind lift]. by rewrite Hl.
Qed.

(** X12: when the snapshot holds a reading of station 22039 and the store
    answers normally, the live handler reports true exactly when the key
    of the reading is free; run again on the same snapshot it reports
    false and changes no item; the level stored under the key is the one
    that was there first. *)
Theorem live_mode_twice
    (gauges : list (gmap string string)) (l : Level)
    (m : gmap (string * Z) Decimal) (log : list Request) :
  get_latest_level FLESK_GAUGE_NUMBER gauges = Ok (Some l) →
  let key := ("Flesk", timestamp (time l)) in
  let first := update_current_levels_table_handler gauges (mk_Store m [] log) in
  let second := update_current_levels_table_handler gauges first.2 in
  first.1 = Ok (bool_decide (m !! key = None))
  ∧ second.1 = Ok false
  ∧ items second.2 = items first.2
  ∧ items second.2 !! key = Some (default (level l) (m !! key)).
Proof.
  intros Hl key first second. subst first second.
  rewrite !(update_current_levels_table_handler_found _ l) by done.
  rewrite update_level_db_unfold. cbn zeta.
  change (item_key (flesk_item l)) with key.
  destruct (m !! key) as [v|] eqn:Hkey; cbn [fst snd tail items default].
  - rewrite update_level_db_unfold. cbn zeta.
    change (item_key (flesk_item l)) with key. rewrite Hkey.
    cbn [fst snd items]. by rewrite Hkey.
  - rewrite update_level_db_unfold. cbn zeta.
    change (item_key (flesk_item l)) with key.
    rewrite lookup_insert_eq. cbn [fst snd items].
    by rewrite lookup_insert_eq.
Qed.

(** X13: on a store that answers normally, a reading that the conditional
    put has just inserted is returned by the range query for "Flesk"
    whenever the query's bound lies below the reading's timestamp, at the
    time its timestamp converts back to. *)
Theorem put_then_range_query
    (l : Level) (since_date : datetime)
    (m : gmap (string * Z) Decimal) (log : list Request) :
  m !! ("Flesk", timestamp (time l)) = None →
  timestamp since_date < timestamp (time l) →
  let st := (update_level_db (Some l) (mk_Store m [] log)).2 in
  ∃ levels,
    (get_past_data_dynamo "Flesk" since_date st).1 = Ok levels
    ∧ mk_Level (fromtimestamp (timestamp (time l))) (level l) ∈ levels.
Proof.
  intros Hfree Hsince st. subst st.
  rewrite update_level_db_unfold. cbn zeta.
  change (item_key (flesk_item l)) with ("Flesk", timestamp (time l)).
  rewrite Hfree. cbn [snd tail].
  rewrite get_past_data_dynamo_healthy. cbn [fst]. eexists. split; [done|].
  apply list_elem_of_fmap. exists (flesk_item l). split; [done|].
  apply elem_of_query_items. split; [done|]. split; [|done].
  apply lookup_insert_eq.
Qed.

(** ** Backfill mode *)

(** X14: a failure of the import reaches the caller before any request is
    sent to the table; and when the range query fails, the handler raises
    that error after the query alone: nothing is written. *)
Theorem backfill_failures_write_nothing
    (text : string) (now : datetime) (e : exn) :
  (get_past_data_epa text 3000 = Raise e →
   ∀ st, update_past_levels_table_handler text now st = (Raise e, st))
  ∧ (is_ok (get_past_data_epa text 3000) →
     ∀ m fs log,
       update_past_levels_table_handler text now (mk_Store m (Some e :: fs) log)
       = (Raise e,
          mk_Store m fs
            (log ++ [Query "Flesk" (timestamp (minus_days now 50))]))).
Proof.
  split.
  - intros Hepa st. unfold update_past_levels_table_handler.
    cbv [mbind M_bind lift]. by rewrite Hepa.
  - intros [epa Hepa] m fs log. unfold update_past_levels_table_handler.
    cbv [mbind M_bind lift]. by rewrite Hepa.
Qed.

Lemma last_with_key_other_river k (levels : list Level) :
  k.1 ≠ "Flesk" → last_with_key k (flesk_item <$> levels) = None.
Proof.
  intros Hk. unfold last_with_key.
  induction levels as [|l levels IH]; [done|].
  rewrite fmap_cons, filter_cons_False; [done|].
  intros <-. by apply Hk.
Qed.

(** X15: on a store that answers normally and an archive that imports,
    the backfill handler reports true exactly when some candidate's time is
    missing from the window; afterwards every such candidate has an item
    under ("Flesk", timestamp), every key that held an item still holds
    one, and the items of other rivers are as before. *)
Theorem backfill_outcome
    (text : string) (now : datetime) (epa_levels : list Level)
    (m : gmap (string * Z) Decimal) (log : list Request) :
  get_past_data_epa text 3000 = Ok epa_levels →
  let window := dynamo_window now m in
  let run := update_past_levels_table_handler text now (mk_Store m [] log) in
  run.1 = Ok (bool_decide
                (Exists (λ l, time l ∉ time <$> window) epa_levels))
  ∧ (∀ l, l ∈ epa_levels → time l ∉ time <$> window →
          is_Some (items run.2 !! ("Flesk", timestamp (time l))))
  ∧ (∀ k, is_Some (m !! k) → is_Some (items run.2 !! k))
  ∧ (∀ k, k.1 ≠ "Flesk" → items run.2 !! k = m !! k).
Proof.
  intros Hepa window run. subst run.
  rewrite (update_past_levels_table_handler_healthy _ _ _ _ _ Hepa).
  cbn zeta. fold window.
  destruct (new_river_levels epa_levels window) as [|l0 new] eqn:Hnew.
  - cbn [fst snd items]. split; [|split; [|done]].
    + rewrite bool_decide_eq_false_2; [done|].
      intros (l & Hl & Hout)%Exists_exists.
      assert (l ∈ new_river_levels epa_levels window) as Hin
        by by apply new_river_levels_elem.
      rewrite Hnew in Hin. by apply elem_of_nil in Hin.
    + intros l Hl Hout.
      assert (l ∈ new_river_levels epa_levels window) as Hin
        by by apply new_river_levels_elem.
      rewrite Hnew in Hin. by apply elem_of_nil in Hin.
  - cbn [fst snd items]. split; [|split; [|split]].
    + rewrite bool_decide_eq_true_2; [done|].
      apply Exists_exists. exists l0.
      apply new_river_levels_elem. rewrite Hnew. by left.
    + intros l Hl Hout. apply write_all_is_Some. right.
      apply list_elem_of_fmap. exists (flesk_item l). split; [done|].
      apply list_elem_of_fmap_2. rewrite <-Hnew.
      by apply new_river_levels_elem.
    + intros k Hk. apply write_all_is_Some. by left.
    + intros k Hk. rewrite write_all_lookup.
      by rewrite (last_with_key_other_river k (l0 :: new)).
Qed.

(** X16: a candidate whose timestamp is at or below the bound of the
    window counts as new on every run, whatever the table holds under its
    key: provided no item of the window converts to the candidate's time
    from another timestamp, the handler reports true and writes. *)
Theorem backfill_rewrites_below_the_bound
    (text : string) (now : datetime) (epa_levels : list Level) (l : Level)
    (m : gmap (string * Z) Decimal) (log : list Request) :
  let since := timestamp (minus_days now 50) in
  get_past_data_epa text 3000 = Ok epa_levels →
  l ∈ epa_levels →
  timestamp (time l) ≤ since →
  (∀ it, it ∈ query_items "Flesk" since m →
         fromtimestamp (item_timestamp it) = time l →
         item_timestamp it = timestamp (time l)) →
  let run := update_past_levels_table_handler text now (mk_Store m [] log) in
  run.1 = Ok true
  ∧ BatchWrite (flesk_item <$> new_river_levels epa_levels (dynamo_window now m))
    ∈ requests run.2.
Proof.
  intros since Hepa Hl Hbelow Hunique run.
  assert (l ∈ new_river_levels epa_levels (dynamo_window now m)) as Hnew.
  { apply new_river_levels_elem. split; [done|].
    unfold dynamo_window. rewrite <-list_fmap_compose.
    intros (it & Htime & Hit)%list_elem_of_fmap. cbn in Htime.
    pose proof (Hunique it Hit (eq_sym Htime)) as Hts.
    apply elem_of_query_items in Hit as (_ & _ & Habove).
    fold since in Habove. lia. }
  subst run.
  rewrite (update_past_levels_table_handler_healthy _ _ _ _ _ Hepa).
  cbn zeta.
  destruct (new_river_levels epa_levels (dynamo_window now m)) as [|l0 new];
    [by apply elem_of_nil in Hnew|].
  cbn [fst snd requests]. split; [done|].
  rewrite !elem_of_app. right. by left.
Qed.

(** ** The dispatcher *)

Section Handler.
Variable draw_graph_levels : list Level → string → result string.

(** X17: without fresh data nothing is drawn, whatever the plotting would
    do: an event with neither key sends no request at all; a "current"
    event whose reading is already stored sends its put and stops; a
    "past" event whose candidates are all in the window sends its query
    and stops. *)
Theorem handler_draws_nothing_without_fresh_data
    (event : gmap string string) (gauges : list (gmap string string))
    (text : string) (now later : datetime)
    (m : gmap (string * Z) Decimal) (log : list Request) :
  (event !! "current" = None → event !! "past" = None →
   ∀ st, handler draw_graph_levels event gauges text now later st = (Ok (), st))
  ∧ (∀ l,
       is_Some (event !! "current") →
       get_latest_level FLESK_GAUGE_NUMBER gauges = Ok (Some l) →
       is_Some (m !! ("Flesk", timestamp (time l))) →
       handler draw_graph_levels event gauges text now later (mk_Store m [] log)
       = (Ok (), mk_Store m [] (log ++ [PutItem (flesk_item l)])))
  ∧ (∀ epa_levels,
       event !! "current" = None → is_Some (event !! "past") →
       get_past_data_epa text 3000 = Ok epa_levels →
       (∀ l, l ∈ epa_levels → time l ∈ time <$> dynamo_window now m) →
       handler draw_graph_levels event gauges text now later (mk_Store m [] log)
       = (Ok (),
          mk_Store m []
            (log ++ [Query "Flesk" (timestamp (minus_days now 50))]))).
Proof.
  split; [|split].
  - intros Hcurrent Hpast st. unfold handler.
    rewrite !bool_decide_eq_false_2; [done| |];
      rewrite ?Hcurrent, ?Hpast; by intros [? ?].
  - intros l Hcurrent Hl [v Hv]. unfold handler.
    rewrite bool_decide_eq_true_2 by done.
    cbv [mbind M_bind].
    rewrite (update_current_levels_table_handler_found _ l) by done.
    rewrite update_level_db_unfold. cbn zeta.
    change (item_key (flesk_item l)) with ("Flesk", timestamp (time l)).
    by rewrite Hv.
  - intros epa Hcurrent Hpast Hepa Hold. unfold handler.
    rewrite bool_decide_eq_false_2
      by (rewrite Hcurrent; by intros [? ?]).
    rewrite bool_decide_eq_true_2 by done.
    cbv [mbind M_bind].
    rewrite (update_past_levels_table_handler_healthy _ _ _ _ _ Hepa).
    cbn zeta. by rewrite new_river_levels_nil.
Qed.

(** X18: a "current" event with a new reading stores it first and draws
    afterwards, from the table as it is then: the handler's outcome is the
    plotting's outcome, and the reading stays stored also when the plotting
    raises. *)
Theorem handler_stores_before_drawing
    (event : gmap string string) (gauges : list (gmap string string))
    (text : string) (now later : datetime) (l : Level)
    (m : gmap (string * Z) Decimal) (log : list Request) :
  is_Some (event !! "current") →
  get_latest_level FLESK_GAUGE_NUMBER gauges = Ok (Some l) →
  m !! ("Flesk", timestamp (time l)) = None →
  let stored := <[("Flesk", timestamp (time l)) := level l]> m in
  let run :=
    handler draw_graph_levels event gauges text now later
            (mk_Store m [] log) in
  run.1 = (_ ← draw_graph_levels (dynamo_window later stored)
                                 "Flesk - Last two weeks"; Ok ())
  ∧ items run.2 = stored
  ∧ requests run.2
    = log ++ [PutItem (flesk_item l);
              Query "Flesk" (timestamp (minus_days later 50))].
Proof.
  intros Hcurrent Hl Hfree stored run. subst run. unfold handler.
  rewrite bool_decide_eq_true_2 by done.
  cbv [mbind M_bind].
  rewrite (update_current_levels_table_handler_found _ l) by done.
  rewrite update_level_db_unfold. cbn zeta.
  change (item_key (flesk_item l)) with ("Flesk", timestamp (time l)).
  rewrite Hfree. cbn [tail]. fold stored.
  unfold create_graph_handler. cbv [mbind M_bind lift].
  rewrite get_past_data_dynamo_healthy.
  fold (dynamo_window later stored).
  destruct (draw_graph_levels (dynamo_window later stored)
              "Flesk - Last two weeks");
    cbn; by rewrite <-app_assoc.
Qed.

End Handler.

End MoreProperties.

(** * Runs on the concrete platform *)

#[local] Existing Instance Utc.platform.

Ltac by_evaluation := solve [reflexivity | exact I].

Lemma conditional_put_first_write_wins_witness :
  let first := update_level_db (Some Sample.polled) Sample.empty_store in
  let again := update_level_db (Some Sample.polled) first.2 in
  first.1 = Ok true
  ∧ again.1 = Ok false
  ∧ items again.2 = items first.2
  ∧ size (items again.2) = 1%nat.
Proof.
  intros first again.
  pose proof (conditional_put_first_write_wins Sample.polled ∅ [])
    as Hput.
  cbv zeta in Hput. destruct Hput as (Hfirst & _ & _ & Htwice).
  assert ((∅ : gmap (string * Z) Decimal)
            !! item_key (flesk_item Sample.polled) = None) as Hfree
    by reflexivity.
  destruct (Htwice Hfree Sample.polled eq_refl) as (Hagain & Hsame & _ & Hsize).
  split; [exact Hfirst|]. split; [exact Hagain|]. split; [exact Hsame|].
  exact Hsize.
Defined.

Lemma new_river_levels_is_difference_witness :
  new_river_levels
    [Sample.reading 0 0 110; Sample.reading 0 15 111; Sample.reading 0 30 112]
    [Sample.reading 0 0 110; Sample.reading 0 15 111]
  = [Sample.reading 0 30 112].
Proof.
  destruct (new_river_levels_is_difference (H := Utc.platform) [] [])
    as (_ & _ & Hexample).
  apply Hexample; discriminate.
Defined.

Lemma unexpected_store_error_propagates_witness :
  let throttled := ClientError "ProvisionedThroughputExceededException" "slow down" in
  let conflict := ClientError "ConditionalCheckFailedException" "exists" in
  (update_level_db (Some Sample.polled) (mk_Store ∅ [Some throttled] [])).1
  = Raise throttled
  ∧ (update_level_db (Some Sample.polled) (mk_Store ∅ [Some conflict] [])).1
    = Ok false.
Proof.
  intros throttled conflict. split.
  - destruct (unexpected_store_error_propagates
                Sample.polled ∅ throttled [] []) as (Hraise & _ & _).
    rewrite Hraise; [reflexivity|discriminate].
  - destruct (unexpected_store_error_propagates
                Sample.polled ∅ conflict [] []) as (_ & Hfalse & _).
    rewrite Hfalse; reflexivity.
Defined.

Lemma range_query_is_exclusive_witness :
  let since_date := mk_datetime 1970 1 1 0 3 20 0 None in
  let d := Utc.mk_dec 110 (-2) in
  (get_past_data_dynamo "Flesk" since_date
     (mk_Store (<[("Flesk", 100) := d]>
                  (<[("Flesk", 200) := d]> (<[("Flesk", 300) := d]> ∅)))
               [] [])).1
  = Ok [mk_Level (mk_datetime 1970 1 1 0 5 0 0 None) d].
Proof.
  intros since_date d.
  destruct (range_query_is_exclusive "Flesk" since_date ∅ [])
    as (_ & Hexample).
  apply (Hexample eq_refl d d d).
Defined.

Lemma live_readings_stored_under_Flesk_witness :
  let run :=
    (latest ← lift (get_latest_level 22040 Sample.snapshot);
     update_level_db latest) Sample.empty_store in
  run.1 = Ok true
  ∧ items run.2 !! ("Flesk", 1704102300) = Some (Utc.mk_dec 151 (-2))
  ∧ items run.2 !! ("22040", 1704102300) = None.
Proof.
  intros run.
  destruct (live_readings_stored_under_Flesk 22040 Sample.snapshot
              Sample.empty_store) as (_ & Hother & Htrue).
  fold run in Hother, Htrue.
  assert (run.1 = Ok true) as Hrun by by_evaluation.
  split; [exact Hrun|].
  destruct (Htrue Hrun) as (l & Hl & Hitems). split.
  - rewrite Hitems. injection Hl as <-. by_evaluation.
  - rewrite Hother by discriminate. reflexivity.
Defined.

Lemma get_past_data_epa_last_n_witness :
  import_rows (csv_reader Sample.archive) 3 = Ok Sample.last_three
  ∧ Z.of_nat (length Sample.last_three) ≤ 3.
Proof.
  assert (1 ≤ 3) as Hn by lia.
  assert (Forall (λ row, row ≠ []) (csv_reader Sample.archive)) as Hblank
    by (apply (bool_decide_unpack _); by_evaluation).
  assert (Forall (λ row, is_ok (row_time row))
            (last_n (Z.to_nat 3)
               (filter (λ row, ¬ is_comment row)
                       (csv_reader Sample.archive)))) as Htimes
    by (repeat constructor; eexists; by_evaluation).
  exact (get_past_data_epa_last_n (csv_reader Sample.archive) 3
           Hn Hblank Htimes).
Defined.

(** C5 as stated fails: with a count of zero the slice [rows[-0:]] is the
    whole list, so more than zero readings come back; an archive with a
    malformed date among its last three rows gives no result at all; and
    neither does an archive with a blank line, wherever it is. *)
Lemma get_past_data_epa_not_always_last_n :
  (∃ levels,
     get_past_data_epa Sample.short_archive 0 = Ok levels
     ∧ ¬ Z.of_nat (length levels) ≤ 0)
  ∧ ¬ is_ok (get_past_data_epa Sample.bad_date_archive 3)
  ∧ ¬ is_ok (get_past_data_epa MoreSamples.blank_archive 1).
Proof.
  split; [|split].
  - exists [Sample.reading 0 0 110; Sample.reading 0 15 111].
    split; [by_evaluation|]. simpl. lia.
  - intros [levels Hlevels]. discriminate Hlevels.
  - intros [levels Hlevels]. discriminate Hlevels.
Defined.

Lemma unparseable_value_row_is_dropped_witness :
  let good := ["2024-01-01"; "00:00:00;1.10;G"] in
  let bad := ["2024-01-01"; "00:15:00;---;G"] in
  let comment := ["#Timestamp;Value;Quality"] in
  read_rows [] [good; bad] = read_rows [] [good]
  ∧ data_rows [comment; good; bad] = data_rows [good; bad]
  ∧ read_rows [] [good; bad] = Ok [Sample.reading 0 0 110]
  ∧ get_past_data_epa Sample.noisy_archive 3000 = Ok [Sample.reading 0 0 110].
Proof.
  intros good bad comment.
  destruct (unparseable_value_row_is_dropped (H := Utc.platform))
    as (Hdrop & Hcomment & Hkeep).
  assert (read_rows [] [good; bad] = read_rows [] [good]) as Hbad.
  { apply (Hdrop [] [good] bad []
             (mk_datetime 2024 1 1 0 15 0 0 None) "---"); by_evaluation. }
  split; [exact Hbad|]. split.
  - apply (Hcomment [] comment [good; bad]). by_evaluation.
  - split.
    + rewrite Hbad.
      apply (Hkeep [] good [] (mk_datetime 2024 1 1 0 0 0 0 None) "1.10"
                   (Utc.mk_dec 110 (-2))); by_evaluation.
    + by_evaluation.
Defined.

Lemma malformed_date_time_aborts_import_witness :
  raises (import_rows (csv_reader Sample.bad_date_archive) 3)
  ∧ is_ok (read_row [] ["2024-01-01"; "00:15:00;---;G"]).
Proof.
  destruct (malformed_date_time_aborts_import (H := Utc.platform))
    as (Htolerated & Haborts).
  split.
  - apply (Haborts (csv_reader Sample.bad_date_archive) 3
             ["2024-01-xx"; "00:15:00;1.11;G"]).
    + apply (bool_decide_unpack _). by_evaluation.
    + exists "2024-01-xx", "00:15:00;1.11;G".
      split; [reflexivity|]. split; [reflexivity|].
      exists 2%nat. left. split; [lia|by_evaluation].
  - apply Htolerated. eexists. by_evaluation.
Defined.



(** ** Runs for the further properties *)

Lemma update_level_db_keeps_items_witness :
  items (update_level_db (Some Sample.polled)
           (mk_Store {[ ("Flesk", 1704103200) := Utc.mk_dec 100 (-2) ]}
                     [] [])).2
    !! ("Flesk", 1704103200)
  = Some (Utc.mk_dec 100 (-2)).
Proof.
  apply (update_level_db_keeps_items (Some Sample.polled)).
  reflexivity.
Defined.

Lemma conditional_put_after_batch_is_refused_witness :
  let st :=
    (batch_update_level_db "Flesk" Sample.last_three Sample.empty_store).2 in
  (update_level_db (Some (Sample.reading 2 0 999)) st).1 = Ok false
  ∧ items (update_level_db (Some (Sample.reading 2 0 999)) st).2 = items st.
Proof.
  apply (conditional_put_after_batch_is_refused
           Sample.last_three (Sample.reading 2 0 118)).
  - repeat constructor.
  - reflexivity.
Defined.

Lemma empty_row_aborts_import_witness :
  import_rows
    [ ["2024-01-01"; "00:00:00;1.10;G"]; [];
      ["2024-01-01"; "00:15:00;1.11;G"] ] 1
  = Raise IndexError.
Proof.
  apply (empty_row_aborts_import (H := Utc.platform)).
  apply (bool_decide_unpack _). by_evaluation.
Defined.

Lemma import_rows_whole_file_witness :
  import_rows (csv_reader Sample.short_archive) 0
  = Ok [Sample.reading 0 0 110; Sample.reading 0 15 111].
Proof.
  rewrite (import_rows_whole_file (csv_reader Sample.short_archive) 0).
  - reflexivity.
  - by left.
  - apply (bool_decide_unpack _). by_evaluation.
  - repeat constructor; eexists; by_evaluation.
Defined.

Lemma import_rows_returns_slice_witness :
  Sample.last_three
  = omap reading_of
      (slice_from (- 3)
         (filter (λ row, ¬ is_comment row) (csv_reader Sample.archive))).
Proof.
  assert (import_rows (csv_reader Sample.archive) 3 = Ok Sample.last_three)
    as Hget by reflexivity.
  exact (proj1 (import_rows_returns_slice _ _ _ Hget)).
Defined.

Lemma get_past_data_epa_times_on_calendar_witness :
  on_calendar (time (Sample.reading 2 15 119)).
Proof.
  apply (get_past_data_epa_times_on_calendar Sample.archive 3
           Sample.last_three).
  - reflexivity.
  - repeat constructor.
Defined.

Lemma get_latest_level_first_match_witness :
  get_latest_level 22039 Sample.snapshot = Ok (Some Sample.polled).
Proof.
  apply (get_latest_level_first_match (H := Utc.platform) 22039
           [Sample.gauge "22040" "2024-01-01T09:45:00Z" "7.01" "5.5"] []
           (Sample.gauge "22039" "2024-01-01T10:00:00Z" "1.52" "0.3")
           "2024-01-01T10:00:00Z" "1.52" "0.3"
           (mk_datetime 2024 1 1 10 0 0 0 (Some 0))
           (Utc.mk_dec 152 (-2)) (Utc.mk_dec 3 (-1)));
    try reflexivity.
  repeat constructor. exists "22040". split; [reflexivity|discriminate].
Defined.

Lemma get_latest_level_missing_station_number_witness :
  get_latest_level 22039 MoreSamples.unnumbered_snapshot
  = Raise (KeyError "metadata_station_no").
Proof.
  apply (get_latest_level_missing_station_number (H := Utc.platform) 22039 []
           [Sample.gauge "22039" "2024-01-01T10:00:00Z" "1.52" "0.3"]
           {[ "L1_timestamp" := "2024-01-01T09:45:00Z" ]}).
  - constructor.
  - reflexivity.
Defined.

Lemma get_latest_level_bad_value_witness :
  get_latest_level 22039 MoreSamples.marker_snapshot = Raise InvalidOperation.
Proof.
  apply (get_latest_level_bad_value (H := Utc.platform) 22039 [] []
           (Sample.gauge "22039" "2024-01-01T10:00:00Z" "n/a" "0.3")
           "2024-01-01T10:00:00Z" "n/a"
           (mk_datetime 2024 1 1 10 0 0 0 (Some 0)));
    try reflexivity.
  constructor.
Defined.

Lemma live_mode_twice_witness :
  let first :=
    update_current_levels_table_handler Sample.snapshot Sample.empty_store in
  let second := update_current_levels_table_handler Sample.snapshot first.2 in
  first.1 = Ok true
  ∧ second.1 = Ok false
  ∧ items second.2 = items first.2
  ∧ items second.2 !! ("Flesk", 1704103200) = Some (Utc.mk_dec 122 (-2)).
Proof.
  intros first second.
  assert (get_latest_level FLESK_GAUGE_NUMBER Sample.snapshot
          = Ok (Some Sample.polled)) as Hfound by reflexivity.
  destruct (live_mode_twice Sample.snapshot Sample.polled ∅ [] Hfound)
    as (Hfirst & Hsecond & Hsame & Hkept).
  split; [exact Hfirst|]. split; [exact Hsecond|]. split; [exact Hsame|].
  exact Hkept.
Defined.

Lemma put_then_range_query_witness :
  ∃ levels,
    (get_past_data_dynamo "Flesk" MoreSamples.midnight
       (update_level_db (Some Sample.polled) Sample.empty_store).2).1
    = Ok levels
    ∧ mk_Level (mk_datetime 2024 1 1 10 0 0 0 None) (Utc.mk_dec 122 (-2))
      ∈ levels.
Proof.
  assert ((∅ : gmap (string * Z) Decimal)
            !! ("Flesk", timestamp (time Sample.polled)) = None) as Hfree
    by reflexivity.
  assert (timestamp MoreSamples.midnight < timestamp (time Sample.polled))
    as Hbound by reflexivity.
  exact (put_then_range_query Sample.polled MoreSamples.midnight ∅ []
           Hfree Hbound).
Defined.

Lemma backfill_failures_write_nothing_witness :
  update_past_levels_table_handler Sample.bad_date_archive (Sample.noon 10)
                                   Sample.empty_store
  = (Raise ValueError, Sample.empty_store)
  ∧ (update_past_levels_table_handler Sample.archive (Sample.noon 10)
       (mk_Store ∅ [Some (OtherError "EndpointConnectionError")] [])).1
    = Raise (OtherError "EndpointConnectionError").
Proof.
  split.
  - destruct (backfill_failures_write_nothing Sample.bad_date_archive
                (Sample.noon 10) ValueError) as [Himport _].
    apply Himport. reflexivity.
  - destruct (backfill_failures_write_nothing Sample.archive
                (Sample.noon 10) (OtherError "EndpointConnectionError"))
      as [_ Hquery].
    rewrite Hquery; [reflexivity|].
    exists MoreSamples.ten_readings. reflexivity.
Defined.

Lemma backfill_outcome_witness :
  let run :=
    update_past_levels_table_handler Sample.archive (Sample.noon 10)
                                     Sample.empty_store in
  run.1 = Ok true
  ∧ is_Some (items run.2 !! ("Flesk", 1704067200)).
Proof.
  intros run.
  assert (get_past_data_epa Sample.archive 3000 = Ok MoreSamples.ten_readings)
    as Hepa by reflexivity.
  destruct (backfill_outcome Sample.archive (Sample.noon 10)
              MoreSamples.ten_readings ∅ [] Hepa)
    as (Hresult & Hstored & _ & _).
  assert (time (Sample.reading 0 0 110)
          ∉ time <$> dynamo_window (Sample.noon 10) ∅) as Hout.
  { unfold dynamo_window. rewrite query_items_empty. apply not_elem_of_nil. }
  split.
  - unfold run, Sample.empty_store. rewrite Hresult. reflexivity.
  - apply (Hstored (Sample.reading 0 0 110)); [by left|exact Hout].
Defined.

Lemma backfill_rewrites_below_the_bound_witness :
  (update_past_levels_table_handler Sample.archive MoreSamples.first_of_march
     (mk_Store {[ ("Flesk", 1704067200) := Utc.mk_dec 110 (-2) ]} [] [])).1
  = Ok true.
Proof.
  assert (get_past_data_epa Sample.archive 3000 = Ok MoreSamples.ten_readings)
    as Hepa by reflexivity.
  apply (backfill_rewrites_below_the_bound Sample.archive
           MoreSamples.first_of_march MoreSamples.ten_readings
           (Sample.reading 0 0 110) _ [] Hepa).
  - by left.
  - vm_compute. discriminate.
  - intros it (_ & Hit & _)%elem_of_query_items _.
    apply lookup_singleton_Some in Hit as [[= _ Hts] _].
    rewrite <-Hts. reflexivity.
Defined.

Lemma handler_draws_nothing_without_fresh_data_witness :
  handler MoreSamples.draw MoreSamples.other_event Sample.snapshot
          Sample.archive (Sample.noon 10) (Sample.noon 10) Sample.empty_store
  = (Ok (), Sample.empty_store)
  ∧ (handler MoreSamples.draw MoreSamples.current_event Sample.snapshot
       Sample.archive (Sample.noon 10) (Sample.noon 10)
       (mk_Store {[ ("Flesk", 1704103200) := Utc.mk_dec 122 (-2) ]} [] [])).1
    = Ok ().
Proof.
  destruct (handler_draws_nothing_without_fresh_data MoreSamples.draw
              MoreSamples.other_event Sample.snapshot Sample.archive
              (Sample.noon 10) (Sample.noon 10) ∅ []) as (Hnone & _ & _).
  destruct (handler_draws_nothing_without_fresh_data MoreSamples.draw
              MoreSamples.current_event Sample.snapshot Sample.archive
              (Sample.noon 10) (Sample.noon 10)
              {[ ("Flesk", 1704103200) := Utc.mk_dec 122 (-2) ]} [])
    as (_ & Hstale & _).
  split.
  - apply Hnone; reflexivity.
  - rewrite (Hstale Sample.polled); [reflexivity| | |].
    + by eexists.
    + reflexivity.
    + by eexists.
Defined.

Lemma handler_stores_before_drawing_witness :
  let run :=
    handler MoreSamples.draw MoreSamples.current_event Sample.snapshot
            Sample.archive (Sample.noon 10) MoreSamples.first_of_march
            Sample.empty_store in
  run.1 = Raise IndexError
  ∧ items run.2 = {[ ("Flesk", 1704103200) := Utc.mk_dec 122 (-2) ]}.
Proof.
  intros run.
  assert (is_Some (MoreSamples.current_event !! "current")) as Hevent
    by by eexists.
  assert (get_latest_level FLESK_GAUGE_NUMBER Sample.snapshot
          = Ok (Some Sample.polled)) as Hfound by reflexivity.
  assert ((∅ : gmap (string * Z) Decimal)
            !! ("Flesk", timestamp (time Sample.polled)) = None) as Hfree
    by reflexivity.
  destruct (handler_stores_before_drawing MoreSamples.draw
              MoreSamples.current_event Sample.snapshot Sample.archive
              (Sample.noon 10) MoreSamples.first_of_march Sample.polled
              ∅ [] Hevent Hfound Hfree) as (Hresult & Hitems & _).
  split.
  - unfold run, Sample.empty_store. rewrite Hresult. reflexivity.
  - exact Hitems.
Defined.

